(** * csv-merger: the XLSX merge-and-deduplicate tool ([merge_xlsx.py])

    A shallow embedding of [merge_xlsx_files] and of the pandas operations it
    calls, followed by the properties of the accumulation loop, of the
    duplicate accounting and of the export step.

    Reading guide.
    - A [DataFrame] is kept row-major: its column labels and the list of its
      rows.  Row labels are not kept: the program only ever addresses rows
      by position ([iloc]) and concatenates with [ignore_index=True].
    - A Python statement is a computation in the monad [M]: it reads and
      writes the local variables and the console/file effects, and either
      returns or raises.  A raised exception leaves the state as it was at
      the raise, as in Python.
    - The directory is given by what [Path.exists] and [Path.glob] answer:
      [None] when it does not exist, otherwise the list of [*.xlsx] files
      in enumeration order, each with what [pd.read_excel] does on it.
    - The two calls that change the storage, [mkdir] and [to_csv], are not
      inside any [try].  [finalize], [merge_xlsx_files],
      [create_input_folder] and [main] are the program on a storage where
      both go through; [finalize_on], [merge_xlsx_files_on],
      [create_input_folder_on] and [main_on] take the answers of the
      storage and end in its error when it refuses. *)

From stdpp Require Import base decidable option list sets strings gmap.

Set Warnings "-clear-no-such-hyp".

Open Scope string_scope.
Open Scope list_scope.
Open Scope nat_scope.

Abbreviation length := List.length.

(** ** Tables *)

(** A cell as loaded from a sheet: a text, or the missing value that pandas
    writes NaN.  Both [Series.equals] and [drop_duplicates] treat two
    missing values at the same place as equal, so equality of cells is
    structural. *)
Inductive cell : Type :=
  | Text (s : string)
  | NaN.

#[global] Instance cell_eq_dec : EqDecision cell.
Proof. solve_decision. Defined.

(** One row of a table, by position. *)
Definition Series : Type := list cell.

Record DataFrame : Type := mkDataFrame {
  columns : list string;
  values : list Series
}.

#[global] Instance DataFrame_eq_dec : EqDecision DataFrame.
Proof. solve_decision. Defined.

(** [pd.DataFrame()] *)
Definition empty_frame : DataFrame := mkDataFrame [] [].

(** [len(df)] *)
Definition len (df : DataFrame) : nat := length (values df).

(** [df.empty]: true when either axis has length 0. *)
Definition empty (df : DataFrame) : bool :=
  Nat.eqb (length (columns df)) 0 || Nat.eqb (len df) 0.

(** Position of the first column labelled [c].  [read_excel] makes labels
    unique (a repeated header is renamed), so this is the only one. *)
Fixpoint get_loc (c : string) (cols : list string) : option nat :=
  match cols with
  | [] => None
  | c' :: cols' => if decide (c = c') then Some 0 else S <$> get_loc c cols'
  end.

(** The cell of [row] under label [c]; a label or position that is absent
    reads as missing, which is how [pd.concat] fills a column a frame lacks. *)
Definition take_cell (cols : list string) (row : Series) (c : string) : cell :=
  match get_loc c cols with
  | Some k => nth k row NaN
  | None => NaN
  end.

Definition reindex (cols new_cols : list string) (row : Series) : Series :=
  map (take_cell cols row) new_cols.

(** [pd.concat([a, b], ignore_index=True)]: outer join of the labels in
    order of appearance, rows of [a] followed by rows of [b]. *)
Definition pd_concat (a b : DataFrame) : DataFrame :=
  let cols := columns a ++ filter (λ c, c ∉ columns a) (columns b) in
  mkDataFrame cols
    (map (reindex (columns a) cols) (values a) ++
     map (reindex (columns b) cols) (values b)).

(** [x.equals(y)] on two rows of one frame. *)
Definition equals (x y : Series) : bool := bool_decide (x = y).

(** [df.drop_duplicates()] keeps, in order, every row that no earlier row
    equals (keep='first'); [seen] holds the rows met so far. *)
Fixpoint drop_dups (seen rows : list Series) : list Series :=
  match rows with
  | [] => []
  | r :: rows' =>
      if existsb (equals r) seen then drop_dups seen rows'
      else r :: drop_dups (r :: seen) rows'
  end.

Definition drop_duplicates (df : DataFrame) : DataFrame :=
  mkDataFrame (columns df) (drop_dups [] (values df)).

(** [df.iloc[:n]] *)
Definition iloc_head (df : DataFrame) (n : nat) : DataFrame :=
  mkDataFrame (columns df) (take n (values df)).

(** ** Files, effects and the statement monad *)

Inductive exn : Type :=
  | Exception (msg : string).

(** What [pd.read_excel] does on a file. *)
Inductive workbook : Type :=
  | Loaded (df : DataFrame)
  | Unreadable (e : exn).

Record xlsx_file : Type := mkFile {
  file_name : string;
  file_content : workbook
}.

(** Everything the program shows or writes, in order.  Each [print] of the
    source is one constructor carrying the values it formats; the size of
    the written file, shown in kilobytes, is left out. *)
Inductive event : Type :=
  | PrintFolderMissing (input_folder : string)
  | PrintNoFiles (input_folder : string)
  | PrintPutFilesHere (input_folder : string)
  | PrintFound (n : nat)
  | PrintRule
  | PrintProcessing (i n : nat) (name : string)
  | PrintFileInfo (rows_in_file ncols : nat)
  | PrintMissingColumns (missing_columns : list string)
  | PrintPresentColumns (cols : list string)
  | PrintFiltered
  | PrintDuplicates (duplicate_count : nat)
  | PrintRunningTotal (after_dedup : nat)
  | PrintReadError (e : exn)
  | PrintDone
  | PrintTotalRead (total_rows_before : nat)
  | PrintTotalDuplicates (total_duplicates : nat)
  | PrintFinalRows (n : nat)
  | WriteCsv (output_file : string) (df : DataFrame)
  | PrintExported (output_file : string)
  | PrintExportedColumns (cols : list string)
  | PrintExportedRows (n : nat)
  | PrintNothingToExport.

(** The variables of [merge_xlsx_files] that outlive one loop iteration,
    and the effects so far. *)
Record state : Type := mkState {
  all_data : DataFrame;
  total_rows_before : nat;
  total_duplicates : nat;
  effects : list event
}.

Inductive result (A : Type) : Type :=
  | Return (a : A)
  | Raise (e : exn).
Arguments Return {A} a.
Arguments Raise {A} e.

Definition M (A : Type) : Type := state → result A * state.

#[global] Instance M_ret : MRet M := λ A a st, (Return a, st).

#[global] Instance M_bind : MBind M := λ A B f m st,
  match m st with
  | (Return a, st') => f a st'
  | (Raise e, st') => (Raise e, st')
  end.

Definition raise {A : Type} (e : exn) : M A := λ st, (Raise e, st).

(** [try: m except Exception as e: handler e] *)
Definition try_except {A : Type} (m : M A) (handler : exn → M A) : M A :=
  λ st,
    match m st with
    | (Return a, st') => (Return a, st')
    | (Raise e, st') => handler e st'
    end.

Definition get : M state := λ st, (Return st, st).

Definition emit (ev : event) : M unit := λ st,
  (Return tt,
   mkState (all_data st) (total_rows_before st) (total_duplicates st)
           (effects st ++ [ev])).

Definition set_all_data (df : DataFrame) : M unit := λ st,
  (Return tt,
   mkState df (total_rows_before st) (total_duplicates st) (effects st)).

Definition set_total_rows_before (n : nat) : M unit := λ st,
  (Return tt, mkState (all_data st) n (total_duplicates st) (effects st)).

Definition set_total_duplicates (n : nat) : M unit := λ st,
  (Return tt, mkState (all_data st) (total_rows_before st) n (effects st)).

(** [for i, x in enumerate(l, i): body i x] *)
Fixpoint for_enumerate {A : Type} (body : nat → A → M unit)
    (i : nat) (l : list A) : M unit :=
  match l with
  | [] => mret tt
  | x :: l' => body i x;; for_enumerate body (S i) l'
  end.

(** A loop that updates one local variable [b]. *)
Fixpoint for_fold {A B : Type} (body : B → A → M B)
    (b : B) (l : list A) : M B :=
  match l with
  | [] => mret b
  | x :: l' => b' ← body b x; for_fold body b' l'
  end.

(** [range(a, b)] *)
Definition range (a b : nat) : list nat := seq a (b - a).

(** ** Table operations that can raise *)

(** [pd.read_excel(file_path)] *)
Definition read_excel (f : xlsx_file) : M DataFrame :=
  match file_content f with
  | Loaded df => mret df
  | Unreadable e => raise e
  end.

(** [df[cols]]: the listed columns in the listed order; a label that is
    not there is a [KeyError]. *)
Definition getitem (df : DataFrame) (cols : list string) : M DataFrame :=
  match filter (λ c, c ∉ columns df) cols with
  | [] => mret (mkDataFrame cols (map (reindex (columns df) cols) (values df)))
  | _ :: _ => raise (Exception "KeyError")
  end.

(** [df.iloc[idx]]: out of range is an [IndexError]. *)
Definition iloc (df : DataFrame) (idx : nat) : M Series :=
  match values df !! idx with
  | Some row => mret row
  | None => raise (Exception "IndexError")
  end.

(** ** The program *)

Definition required_columns : list string := ["題目"; "答案"].

(** Lines 93-105: how many of the rows at positions
    [before_merge .. after_concat - 1] equal some row before
    [before_merge]. *)
Definition count_duplicates (data : DataFrame)
    (before_merge after_concat : nat) : M nat :=
  if Nat.ltb 0 before_merge then
    for_fold (λ duplicate_count idx,
        current_row ← iloc data idx;
        let is_duplicate :=
          existsb (λ x, equals x current_row)
                  (values (iloc_head data before_merge)) in
        mret (if is_duplicate then S duplicate_count else duplicate_count))
      0 (range before_merge after_concat)
  else mret 0.

(** Lines 60-118: one iteration of the loop over the files. *)
Definition loop_body (n i : nat) (file_path : xlsx_file) : M unit :=
  emit (PrintProcessing i n (file_name file_path));;
  try_except
    (df ← read_excel file_path;
     let rows_in_file := len df in
     emit (PrintFileInfo rows_in_file (length (columns df)));;
     let missing_columns := filter (λ col, col ∉ columns df) required_columns in
     match missing_columns with
     | _ :: _ =>
         emit (PrintMissingColumns missing_columns);;
         emit (PrintPresentColumns (columns df))
         (* continue *)
     | [] =>
         df ← getitem df required_columns;
         emit PrintFiltered;;
         st ← get;
         set_total_rows_before (total_rows_before st + rows_in_file);;
         let before_merge := len (all_data st) in
         set_all_data (pd_concat (all_data st) df);;
         st ← get;
         let after_concat := len (all_data st) in
         duplicate_count ← count_duplicates (all_data st) before_merge after_concat;
         set_all_data (drop_duplicates (all_data st));;
         st ← get;
         let after_dedup := len (all_data st) in
         set_total_duplicates (total_duplicates st + duplicate_count);;
         emit (PrintDuplicates duplicate_count);;
         emit (PrintRunningTotal after_dedup)
     end)
    (λ e, emit (PrintReadError e) (* continue *)).

(** Lines 120-137: the summary and the export. *)
Definition finalize (output_file : string) : M unit :=
  emit PrintRule;;
  emit PrintDone;;
  st ← get;
  emit (PrintTotalRead (total_rows_before st));;
  emit (PrintTotalDuplicates (total_duplicates st));;
  emit (PrintFinalRows (len (all_data st)));;
  emit PrintRule;;
  if negb (empty (all_data st)) then
    emit (WriteCsv output_file (all_data st));;
    emit (PrintExported output_file);;
    emit (PrintExportedColumns (columns (all_data st)));;
    emit (PrintExportedRows (len (all_data st)))
  else
    emit PrintNothingToExport.

(** [merge_xlsx_files(input_folder, output_file)], with [folder] the
    answer of the file system for [input_folder]. *)
Definition merge_xlsx_files (folder : option (list xlsx_file))
    (input_folder output_file : string) : M unit :=
  match folder with
  | None =>
      emit (PrintFolderMissing input_folder)
      (* return *)
  | Some xlsx_files =>
      match xlsx_files with
      | [] =>
          emit (PrintNoFiles input_folder);;
          emit (PrintPutFilesHere input_folder)
          (* return *)
      | _ :: _ =>
          emit (PrintFound (length xlsx_files));;
          emit PrintRule;;
          set_all_data empty_frame;;
          set_total_rows_before 0;;
          set_total_duplicates 0;;
          for_enumerate (loop_body (length xlsx_files)) 1 xlsx_files;;
          finalize output_file
      end
  end.

(** The state in which the function is entered. *)
Definition start : state := mkState empty_frame 0 0 [].

(** ** The folder and the entry point: [create_input_folder], [main] *)

(** What a path of the working directory holds: a directory, given by its
    [*.xlsx] entries in enumeration order, or something that is not a
    directory. *)
Inductive node : Type :=
  | Directory (xlsx : list xlsx_file)
  | RegularFile.

(** The lines [main] and [create_input_folder] show themselves, and, under
    [Merge], what [merge_xlsx_files] shows or writes. *)
Inductive console_line : Type :=
  | PrintBanner
  | PrintTitle
  | PrintFolderCreated (folder_path : string)
  | PrintFolderExists (folder_path : string)
  | PrintStarting
  | Merge (ev : event)
  | PrintFinished.

(** The working directory as [Path.exists] and [Path.glob] see it, and the
    console.  [mkdir] is taken to succeed; the file that [to_csv] writes
    stays in the log, as for [merge_xlsx_files]. *)
Record world : Type := mkWorld {
  fs : gmap string node;
  console : list console_line
}.

Definition say (lines : list console_line) (w : world) : world :=
  mkWorld (fs w) (console w ++ lines).

(** [folder_path.mkdir(parents=True, exist_ok=True)] on a path that holds
    nothing. *)
Definition mkdir (folder_path : string) (w : world) : world :=
  mkWorld (<[folder_path := Directory []]> (fs w)) (console w).

(** What lines 38 and 43 get from the file system for [folder_path]: a
    path that is not a directory exists and matches no file. *)
Definition discover (w : world) (folder_path : string)
    : option (list xlsx_file) :=
  match fs w !! folder_path with
  | None => None
  | Some (Directory xlsx) => Some xlsx
  | Some RegularFile => Some []
  end.

(** Lines 16-24. *)
Definition create_input_folder (folder_name : string) (w : world)
    : string * world :=
  let folder_path := folder_name in
  match fs w !! folder_path with
  | None =>
      (folder_path, say [PrintFolderCreated folder_path] (mkdir folder_path w))
  | Some _ =>
      (folder_path, say [PrintFolderExists folder_path] w)
  end.

(** The call of line 152, run in the world [w]. *)
Definition call_merge_xlsx_files (input_folder output_file : string)
    (w : world) : result unit * world :=
  let '(r, st) :=
    merge_xlsx_files (discover w input_folder) input_folder output_file start in
  (r, say (Merge <$> effects st) w).

(** Lines 140-156. *)
Definition main (w : world) : result unit * world :=
  let w := say [PrintBanner; PrintTitle; PrintBanner] w in
  let input_folder := "xlsx_files" in
  let '(_, w) := create_input_folder input_folder w in
  let w := say [PrintStarting] w in
  match call_merge_xlsx_files input_folder "merged_output.csv" w with
  | (Return _, w) =>
      (Return tt, say [PrintBanner; PrintFinished; PrintBanner] w)
  | (Raise e, w) => (Raise e, w)
  end.

(** ** The program on a storage that can refuse *)

(** What the storage answers to the two calls that change it: [None] when
    the call goes through, the error it raises otherwise (a path that is
    not writable, a missing parent directory, a dangling link, ...). *)
Record storage : Type := mkStorage {
  mkdir_error : string → option exn;
  to_csv_error : string → DataFrame → option exn
}.

(** A storage on which both calls go through. *)
Definition accepting : storage := mkStorage (λ _, None) (λ _ _, None).

(** [all_data.to_csv(output_path, index=False, encoding='utf-8-sig')] *)
Definition to_csv (io : storage) (output_path : string) (df : DataFrame)
    : M unit :=
  match to_csv_error io output_path df with
  | None => emit (WriteCsv output_path df)
  | Some e => raise e
  end.

(** Lines 120-137: the write of line 131 is outside the loop's [try], so
    its error ends the function before anything more is shown. *)
Definition finalize_on (io : storage) (output_file : string) : M unit :=
  emit PrintRule;;
  emit PrintDone;;
  st ← get;
  emit (PrintTotalRead (total_rows_before st));;
  emit (PrintTotalDuplicates (total_duplicates st));;
  emit (PrintFinalRows (len (all_data st)));;
  emit PrintRule;;
  if negb (empty (all_data st)) then
    to_csv io output_file (all_data st);;
    emit (PrintExported output_file);;
    emit (PrintExportedColumns (columns (all_data st)));;
    emit (PrintExportedRows (len (all_data st)))
  else
    emit PrintNothingToExport.

(** [merge_xlsx_files(input_folder, output_file)] on the storage [io]. *)
Definition merge_xlsx_files_on (io : storage)
    (folder : option (list xlsx_file))
    (input_folder output_file : string) : M unit :=
  match folder with
  | None =>
      emit (PrintFolderMissing input_folder)
      (* return *)
  | Some xlsx_files =>
      match xlsx_files with
      | [] =>
          emit (PrintNoFiles input_folder);;
          emit (PrintPutFilesHere input_folder)
          (* return *)
      | _ :: _ =>
          emit (PrintFound (length xlsx_files));;
          emit PrintRule;;
          set_all_data empty_frame;;
          set_total_rows_before 0;;
          set_total_duplicates 0;;
          for_enumerate (loop_body (length xlsx_files)) 1 xlsx_files;;
          finalize_on io output_file
      end
  end.

(** Lines 16-24 on the storage [io]: [mkdir] is called only when nothing
    is at the path, and its error ends the function before the message. *)
Definition create_input_folder_on (io : storage) (folder_name : string)
    (w : world) : result string * world :=
  let folder_path := folder_name in
  match fs w !! folder_path with
  | None =>
      match mkdir_error io folder_path with
      | None =>
          (Return folder_path,
           say [PrintFolderCreated folder_path] (mkdir folder_path w))
      | Some e => (Raise e, w)
      end
  | Some _ =>
      (Return folder_path, say [PrintFolderExists folder_path] w)
  end.

(** The call of line 152 on the storage [io], run in the world [w]. *)
Definition call_merge_xlsx_files_on (io : storage)
    (input_folder output_file : string) (w : world) : result unit * world :=
  let '(r, st) :=
    merge_xlsx_files_on io (discover w input_folder) input_folder output_file
      start in
  (r, say (Merge <$> effects st) w).

(** Lines 140-156 on the storage [io]: nothing in [main] catches either
    error. *)
Definition main_on (io : storage) (w : world) : result unit * world :=
  let w := say [PrintBanner; PrintTitle; PrintBanner] w in
  let input_folder := "xlsx_files" in
  match create_input_folder_on io input_folder w with
  | (Raise e, w) => (Raise e, w)
  | (Return _, w) =>
      let w := say [PrintStarting] w in
      match call_merge_xlsx_files_on io input_folder "merged_output.csv" w with
      | (Return _, w) =>
          (Return tt, say [PrintBanner; PrintFinished; PrintBanner] w)
      | (Raise e, w) => (Raise e, w)
      end
  end.

(** ** Reading the run: the quantities the statements below speak of *)

(** [missing_columns] of line 70. *)
Definition missing (df : DataFrame) : list string :=
  filter (λ col, col ∉ columns df) required_columns.

(** The rows a loaded table contributes once projected on the two
    required columns. *)
Definition projected (df : DataFrame) : list Series :=
  map (reindex (columns df) required_columns) (values df).

(** A file is well formed when it loads and has both required columns;
    otherwise the loop skips it. *)
Definition well_formed (f : xlsx_file) : Prop :=
  match file_content f with
  | Loaded df => missing df = []
  | Unreadable _ => False
  end.

#[global] Instance well_formed_dec f : Decision (well_formed f).
Proof. unfold well_formed. destruct (file_content f); apply _. Defined.

(** The rows a file adds to the table: its projected rows when it is well
    formed, none when it is skipped. *)
Definition projected_rows (f : xlsx_file) : list Series :=
  match file_content f with
  | Loaded df => if decide (missing df = []) then projected df else []
  | Unreadable _ => []
  end.

(** Row count of a well-formed file as loaded, before projection. *)
Definition rows_read (f : xlsx_file) : nat :=
  match file_content f with
  | Loaded df => if decide (missing df = []) then len df else 0
  | Unreadable _ => 0
  end.

(** The raw accumulation: every projected row of every file, in order,
    nothing removed. *)
Definition all_rows (files : list xlsx_file) : list Series :=
  flat_map projected_rows files.

(** How many rows of [new] equal some row of [prior]. *)
Definition duplicates_against (prior new : list Series) : nat :=
  length (filter (λ r, r ∈ prior) new).

(** The per-file counts summed along a run whose raw accumulation so far
    is [prior]. *)
Fixpoint duplicates_total (prior : list Series) (files : list xlsx_file) : nat :=
  match files with
  | [] => 0
  | f :: files' =>
      duplicates_against prior (projected_rows f) +
      duplicates_total (prior ++ projected_rows f) files'
  end.

(** What one iteration shows for file [f], number [i] of [n], when the
    rows accumulated before it are [prior]. *)
Definition file_events (n i : nat) (prior : list Series) (f : xlsx_file)
    : list event :=
  PrintProcessing i n (file_name f) ::
  match file_content f with
  | Unreadable e => [PrintReadError e]
  | Loaded df =>
      PrintFileInfo (len df) (length (columns df)) ::
      match missing df with
      | [] =>
          [PrintFiltered;
           PrintDuplicates (duplicates_against prior (projected df));
           PrintRunningTotal (length (drop_dups [] (prior ++ projected df)))]
      | _ :: _ =>
          [PrintMissingColumns (missing df); PrintPresentColumns (columns df)]
      end
  end.

Fixpoint loop_events (n i : nat) (prior : list Series) (files : list xlsx_file)
    : list event :=
  match files with
  | [] => []
  | f :: files' =>
      file_events n i prior f ++
      loop_events n (S i) (prior ++ projected_rows f) files'
  end.

(** The state at the top of the loop after the files [pre] have been
    processed, whatever had been shown before the loop started. *)
Definition after_files (n : nat) (pre : list xlsx_file) (st : state) : Prop :=
  ∃ es, for_enumerate (loop_body n) 1 pre (mkState empty_frame 0 0 es)
        = (Return tt, st).

(** The shape the accumulated table always has: still [pd.DataFrame()], or
    exactly the two required columns with two cells in every row. *)
Definition tidy (df : DataFrame) : Prop :=
  df = empty_frame ∨
  (columns df = required_columns ∧ Forall (λ r, length r = 2) (values df)).

(** The state after the files [pre], written out: the table is the
    first-occurrence deduplication of the raw accumulation, under the two
    required columns as soon as one file was well formed. *)
Definition state_after (n : nat) (es : list event) (pre : list xlsx_file) : state :=
  mkState
    (mkDataFrame
       (if decide (Exists well_formed pre) then required_columns else [])
       (drop_dups [] (all_rows pre)))
    (sum_list (rows_read <$> pre))
    (duplicates_total [] pre)
    (es ++ loop_events n 1 [] pre).

(** ** Summary and export, read off the final state *)

(** What the export step does with the final table. *)
Definition export_events (output_file : string) (df : DataFrame) : list event :=
  if negb (empty df) then
    [WriteCsv output_file df;
     PrintExported output_file;
     PrintExportedColumns (columns df);
     PrintExportedRows (len df)]
  else [PrintNothingToExport].

Definition final_events (output_file : string) (st : state) : list event :=
  [PrintRule; PrintDone;
   PrintTotalRead (total_rows_before st);
   PrintTotalDuplicates (total_duplicates st);
   PrintFinalRows (len (all_data st));
   PrintRule] ++ export_events output_file (all_data st).

(** The events of one loop iteration, as opposed to those of the header,
    the summary and the export. *)
Definition per_file_event (ev : event) : Prop :=
  match ev with
  | PrintProcessing _ _ _ | PrintFileInfo _ _ | PrintMissingColumns _
  | PrintPresentColumns _ | PrintFiltered | PrintDuplicates _
  | PrintRunningTotal _ | PrintReadError _ => True
  | _ => False
  end.

(** Row count of a file as loaded, all its columns still there. *)
Definition loaded_rows (f : xlsx_file) : nat :=
  match file_content f with
  | Loaded df => len df
  | Unreadable _ => 0
  end.

(** The summary lines, shown before the export is tried. *)
Definition summary_events (st : state) : list event :=
  [PrintRule; PrintDone;
   PrintTotalRead (total_rows_before st);
   PrintTotalDuplicates (total_duplicates st);
   PrintFinalRows (len (all_data st));
   PrintRule].

(** The events of the export step. *)
Definition export_event (ev : event) : Prop :=
  match ev with
  | WriteCsv _ _ | PrintExported _ | PrintExportedColumns _
  | PrintExportedRows _ | PrintNothingToExport => True
  | _ => False
  end.

(** The announcements [[i/n] name] of a log, in order. *)
Definition announcements (es : list event) : list (nat * nat * string) :=
  omap (λ ev, match ev with
              | PrintProcessing i n name => Some (i, n, name)
              | _ => None
              end) es.

(** The per-file duplicate counts of a log, in order. *)
Definition reported_counts (es : list event) : list nat :=
  omap (λ ev, match ev with
              | PrintDuplicates d => Some d
              | _ => None
              end) es.

(** ** Concrete files *)

Module Scenarios.
Definition record (question answer : string) : Series :=
  [Text question; Text answer].

Definition sheet (rows : list Series) : DataFrame :=
  mkDataFrame ["題目"; "答案"] rows.

Definition file1 : xlsx_file :=
  mkFile "file1.xlsx" (Loaded (sheet [record "Q1" "A1"; record "Q2" "A2"])).

Definition file2 : xlsx_file :=
  mkFile "file2.xlsx" (Loaded (sheet [record "Q1" "A1"; record "Q3" "A3"])).

(** Both required columns are there, behind an extra one and swapped. *)
Definition shuffled : xlsx_file :=
  mkFile "shuffled.xlsx"
    (Loaded (mkDataFrame ["編號"; "答案"; "題目"]
               [[Text "7"; Text "A1"; Text "Q1"];
                [Text "8"; Text "A4"; Text "Q4"]])).

Definition wrong_names : xlsx_file :=
  mkFile "wrong_names.xlsx"
    (Loaded (mkDataFrame ["Question"; "Ans"] [[Text "Q1"; Text "A1"]])).

Definition corrupt : xlsx_file :=
  mkFile "corrupt.xlsx" (Unreadable (Exception "File is not a zip file")).

(** One file that holds the same record twice. *)
Definition repeated : xlsx_file :=
  mkFile "repeated.xlsx" (Loaded (sheet [record "Q1" "A1"; record "Q1" "A1"])).

(** The state at the top of the loop once [file1] is done, first of two. *)
Definition after_file1 : state :=
  (for_enumerate (loop_body 2) 1 [file1] (mkState empty_frame 0 0 [])).2.

(** The state between [repeated] and the file that follows it. *)
Definition after_repeated : state :=
  (for_enumerate (loop_body 2) 1 [repeated] (mkState empty_frame 0 0 [])).2.

(** The state once [shuffled] is done, first of two. *)
Definition after_shuffled : state :=
  (for_enumerate (loop_body 2) 1 [shuffled] (mkState empty_frame 0 0 [])).2.
End Scenarios.

(** ** Concrete storages *)

Module Storages.

(** Something that is not a directory sits on the way to [xlsx_files], and
    the working directory takes no new file. *)
Definition read_only : storage :=
  mkStorage (λ _, Some (Exception "PermissionError"))
            (λ _ _, Some (Exception "PermissionError")).
End Storages.

(** * Lemmas *)

(** ** Deduplication on lists of rows *)

Section drop_dups.
Implicit Types (r : Series) (seen rows : list Series).

Lemma existsb_equals r seen : existsb (equals r) seen = true ↔ r ∈ seen.
Proof.
  rewrite existsb_exists. unfold equals. split.
  - intros (x & Hx & Heq). apply bool_decide_eq_true in Heq. subst.
    by apply list_elem_of_In.
  - intros Hr. exists r. split; [by apply list_elem_of_In|].
    by apply bool_decide_eq_true.
Qed.

Lemma existsb_equals_flip r seen :
  existsb (λ x, equals x r) seen = existsb (equals r) seen.
Proof.
  induction seen as [|x seen IH]; simpl; [done|]. rewrite IH. f_equal.
  unfold equals. apply bool_decide_ext. naive_solver.
Qed.

Lemma existsb_equals_false r seen : existsb (equals r) seen = false ↔ r ∉ seen.
Proof.
  rewrite <- existsb_equals. destruct (existsb (equals r) seen); naive_solver.
Qed.

Lemma elem_of_drop_dups seen rows r :
  r ∈ drop_dups seen rows ↔ r ∈ rows ∧ r ∉ seen.
Proof.
  revert seen. induction rows as [|x rows IH]; intros seen; simpl.
  - set_solver.
  - destruct (existsb (equals x) seen) eqn:E.
    + apply existsb_equals in E. rewrite IH. set_solver.
    + apply existsb_equals_false in E.
      rewrite elem_of_cons, IH, !elem_of_cons.
      destruct (decide (r = x)); subst; naive_solver.
Qed.

Lemma NoDup_drop_dups seen rows : NoDup (drop_dups seen rows).
Proof.
  revert seen. induction rows as [|x rows IH]; intros seen; simpl.
  - constructor.
  - destruct (existsb (equals x) seen); [apply IH|].
    constructor; [|apply IH].
    rewrite elem_of_drop_dups. set_solver.
Qed.

(** Only the members of [seen] matter, not their order or number. *)
Lemma drop_dups_ext seen seen' rows :
  (∀ r, r ∈ seen ↔ r ∈ seen') → drop_dups seen rows = drop_dups seen' rows.
Proof.
  revert seen seen'. induction rows as [|x rows IH]; intros seen seen' H; simpl.
  - done.
  - destruct (existsb (equals x) seen) eqn:E.
    + apply existsb_equals in E. apply H in E.
      apply existsb_equals in E. rewrite E. by apply IH.
    + apply existsb_equals_false in E. rewrite H in E.
      apply existsb_equals_false in E. rewrite E. f_equal.
      apply IH. intros r. rewrite !elem_of_cons. naive_solver.
Qed.

Lemma drop_dups_app seen rows1 rows2 :
  drop_dups seen (rows1 ++ rows2) =
  drop_dups seen rows1 ++ drop_dups (rows1 ++ seen) rows2.
Proof.
  revert seen. induction rows1 as [|x rows1 IH]; intros seen; simpl.
  - done.
  - destruct (existsb (equals x) seen) eqn:E.
    + rewrite IH. f_equal. apply drop_dups_ext. intros r.
      apply existsb_equals in E. set_solver.
    + rewrite IH. simpl. do 2 f_equal. apply drop_dups_ext. intros r.
      set_solver.
Qed.

Lemma drop_dups_NoDup_id seen rows :
  NoDup rows → (∀ r, r ∈ rows → r ∉ seen) → drop_dups seen rows = rows.
Proof.
  revert seen. induction rows as [|x rows IH]; intros seen Hnd Hs; simpl.
  - done.
  - apply NoDup_cons in Hnd as [Hx Hnd].
    assert (E : existsb (equals x) seen = false).
    { apply existsb_equals_false, Hs. set_solver. }
    rewrite E. f_equal. apply IH; [done|].
    intros r Hr. rewrite elem_of_cons. intros [->|?]; [done|].
    apply (Hs r); set_solver.
Qed.

Lemma drop_dups_idemp rows :
  drop_dups [] (drop_dups [] rows) = drop_dups [] rows.
Proof.
  apply drop_dups_NoDup_id; [apply NoDup_drop_dups|]. set_solver.
Qed.

(** Deduplicating after every file or once at the end gives the same
    rows. *)
Lemma drop_dups_absorb rows1 rows2 :
  drop_dups [] (drop_dups [] rows1 ++ rows2) = drop_dups [] (rows1 ++ rows2).
Proof.
  rewrite !drop_dups_app, drop_dups_idemp. f_equal.
  apply drop_dups_ext. intros r. rewrite !app_nil_r, elem_of_drop_dups.
  set_solver.
Qed.

Lemma duplicates_against_drop_dups prior new :
  duplicates_against (drop_dups [] prior) new = duplicates_against prior new.
Proof.
  unfold duplicates_against. f_equal. apply list_filter_iff.
  intros r. rewrite elem_of_drop_dups. set_solver.
Qed.

(** Two rows kept by the deduplication stand in the order in which they
    first arrived. *)
Lemma drop_dups_order l1 a l2 b l3 :
  a ∉ l1 → b ∉ l1 ++ a :: l2 →
  ∃ o1 o2 o3,
    drop_dups [] (l1 ++ a :: l2 ++ b :: l3) = o1 ++ a :: o2 ++ b :: o3.
Proof.
  intros Ha Hb.
  exists (drop_dups [] l1), (drop_dups (a :: l1 ++ []) l2),
    (drop_dups (b :: l2 ++ a :: l1 ++ []) l3).
  rewrite drop_dups_app. f_equal. cbn [drop_dups].
  assert (E1 : existsb (equals a) (l1 ++ []) = false).
  { apply existsb_equals_false. by rewrite app_nil_r. }
  rewrite E1. f_equal. rewrite drop_dups_app. f_equal. cbn [drop_dups].
  assert (E2 : existsb (equals b) (l2 ++ a :: l1 ++ []) = false).
  { apply existsb_equals_false. rewrite app_nil_r. set_solver. }
  by rewrite E2.
Qed.
End drop_dups.

(** ** Frames with the two required columns *)

Section frames.
Implicit Types (df : DataFrame) (r : Series) (rows : list Series).

Lemma reindex_required r :
  length r = 2 → reindex required_columns required_columns r = r.
Proof. destruct r as [|a [|b [|c r]]]; done. Qed.

Lemma reindex_required_all rows :
  Forall (λ r, length r = 2) rows →
  map (reindex required_columns required_columns) rows = rows.
Proof.
  induction 1 as [|r rows Hr _ IH]; cbn [map]; [done|].
  by rewrite reindex_required, IH.
Qed.

Lemma projected_two df : Forall (λ r, length r = 2) (projected df).
Proof.
  unfold projected. apply Forall_forall. intros r Hr.
  apply list_elem_of_In, in_map_iff in Hr as (x & <- & _).
  unfold reindex. by rewrite length_map.
Qed.

(** [df[required_columns]] on a table that has both columns. *)
Lemma getitem_projected df st :
  missing df = [] →
  getitem df required_columns st =
  (Return (mkDataFrame required_columns (projected df)), st).
Proof. intros Hm. unfold getitem. fold (missing df). by rewrite Hm. Qed.

Lemma pd_concat_tidy a rows :
  tidy a → Forall (λ r, length r = 2) rows →
  pd_concat a (mkDataFrame required_columns rows) =
  mkDataFrame required_columns (values a ++ rows).
Proof.
  intros [->|[Hc Hv]] Hrows; unfold pd_concat; simpl.
  - f_equal. by apply reindex_required_all.
  - rewrite Hc. simpl. change (filter _ required_columns) with (@nil string).
    simpl. destruct a as [ca va]; simpl in *.
    by rewrite !reindex_required_all.
Qed.
End frames.

(** ** The duplicate scan *)

Section scan.
Variable data : DataFrame.
Variable before_merge : nat.

Let scan_body : nat → nat → M nat := λ duplicate_count idx,
  current_row ← iloc data idx;
  let is_duplicate :=
    existsb (λ x, equals x current_row)
            (values (iloc_head data before_merge)) in
  mret (if is_duplicate then S duplicate_count else duplicate_count).

(** The scan over positions [a .. a+k-1] stays in range, so it never
    raises, and it leaves the state alone. *)
Lemma scan_range k : ∀ a count st,
  a + k ≤ len data →
  for_fold scan_body count (seq a k) st =
  (Return (count + duplicates_against (take before_merge (values data))
                     (take k (drop a (values data)))), st).
Proof.
  induction k as [|k IH]; intros a count st Hle; simpl.
  - unfold duplicates_against. simpl. by rewrite Nat.add_0_r.
  - unfold len in Hle.
    destruct (lookup_lt_is_Some_2 (values data) a) as [row Hrow]; [lia|].
    unfold mbind, M_bind, scan_body at 1, iloc. rewrite Hrow. simpl.
    fold scan_body. unfold mbind, M_bind in IH. rewrite IH by (unfold len; lia).
    rewrite (drop_S _ _ _ Hrow). simpl.
    unfold duplicates_against. rewrite filter_cons.
    rewrite existsb_equals_flip.
    destruct (existsb (equals row) _) eqn:E.
    + apply existsb_equals in E. rewrite decide_True by done.
      simpl. do 2 f_equal. lia.
    + apply existsb_equals_false in E. by rewrite decide_False by done.
Qed.
End scan.

(** Nothing duplicates a row of an empty table. *)
Lemma duplicates_against_nil new : duplicates_against [] new = 0.
Proof.
  unfold duplicates_against. induction new as [|r new IH]; [done|].
  rewrite filter_cons, decide_False; [done|]. apply not_elem_of_nil.
Qed.

Lemma count_duplicates_spec data before_merge st :
  before_merge ≤ len data →
  count_duplicates data before_merge (len data) st =
  (Return (duplicates_against (take before_merge (values data))
                              (drop before_merge (values data))), st).
Proof.
  intros Hle. unfold count_duplicates.
  destruct (Nat.ltb_spec 0 before_merge) as [Hpos|Hz].
  - unfold range. rewrite scan_range by lia. simpl.
    rewrite (take_ge (drop _ _)); [done|]. rewrite length_drop. unfold len. lia.
  - assert (before_merge = 0) as -> by lia. simpl.
    by rewrite duplicates_against_nil.
Qed.

(** ** One iteration of the loop *)

Section iteration.
Variables (n i : nat) (f : xlsx_file).

(** A file that does not load is reported and left behind. *)
Lemma loop_body_unreadable e st :
  file_content f = Unreadable e →
  loop_body n i f st =
  (Return tt,
   mkState (all_data st) (total_rows_before st) (total_duplicates st)
     (effects st ++ [PrintProcessing i n (file_name f); PrintReadError e])).
Proof.
  intros Hf. unfold loop_body, try_except, read_excel, mbind, M_bind, emit, raise.
  rewrite Hf. simpl. by rewrite <- app_assoc.
Qed.

(** So is a file that lacks a required column. *)
Lemma loop_body_missing df st :
  file_content f = Loaded df → missing df ≠ [] →
  loop_body n i f st =
  (Return tt,
   mkState (all_data st) (total_rows_before st) (total_duplicates st)
     (effects st ++
      [PrintProcessing i n (file_name f);
       PrintFileInfo (len df) (length (columns df));
       PrintMissingColumns (missing df);
       PrintPresentColumns (columns df)])).
Proof.
  intros Hf Hm.
  unfold loop_body, try_except, read_excel, mbind, M_bind, emit, mret, M_ret.
  rewrite Hf. simpl. fold (missing df).
  destruct (missing df) as [|c m]; [done|]. simpl.
  by rewrite <- !app_assoc.
Qed.

(** A well-formed file is appended, scanned against the rows that were
    there before it, and the table is deduplicated. *)
Lemma loop_body_well_formed df st :
  file_content f = Loaded df → missing df = [] → tidy (all_data st) →
  loop_body n i f st =
  (Return tt,
   mkState
     (mkDataFrame required_columns
        (drop_dups [] (values (all_data st) ++ projected df)))
     (total_rows_before st + len df)
     (total_duplicates st +
      duplicates_against (values (all_data st)) (projected df))
     (effects st ++
      [PrintProcessing i n (file_name f);
       PrintFileInfo (len df) (length (columns df));
       PrintFiltered;
       PrintDuplicates
         (duplicates_against (values (all_data st)) (projected df));
       PrintRunningTotal
         (length (drop_dups [] (values (all_data st) ++ projected df)))])).
Proof.
  intros Hf Hm Htidy.
  unfold loop_body, try_except, read_excel, getitem.
  unfold mbind, M_bind, emit, mret, M_ret, get, set_all_data,
    set_total_rows_before, set_total_duplicates.
  rewrite Hf. simpl. fold (missing df). rewrite Hm. simpl.
  fold (projected df).
  rewrite (pd_concat_tidy _ _ Htidy (projected_two df)).
  set (data := mkDataFrame required_columns (values (all_data st) ++ projected df)).
  assert (Hlen : len (all_data st) ≤ len data).
  { unfold len, data. simpl. rewrite length_app. lia. }
  rewrite (count_duplicates_spec data (len (all_data st)) _ Hlen).
  unfold data, len. simpl.
  rewrite take_app_length, drop_app_length.
  by rewrite <- !app_assoc.
Qed.
End iteration.

(** ** The whole loop *)

Section accumulation.
Implicit Types (f : xlsx_file) (pre files : list xlsx_file).

Lemma all_rows_app pre files :
  all_rows (pre ++ files) = all_rows pre ++ all_rows files.
Proof. apply flat_map_app. Qed.

Lemma all_rows_cons f files :
  all_rows (f :: files) = projected_rows f ++ all_rows files.
Proof. done. Qed.

Lemma all_rows_snoc pre f :
  all_rows (pre ++ [f]) = all_rows pre ++ projected_rows f.
Proof. rewrite all_rows_app. simpl. by rewrite app_nil_r. Qed.

Lemma projected_rows_well_formed f df :
  file_content f = Loaded df → missing df = [] → projected_rows f = projected df.
Proof. intros Hf Hm. unfold projected_rows. rewrite Hf. by rewrite decide_True. Qed.

Lemma projected_rows_skipped f : ¬ well_formed f → projected_rows f = [].
Proof.
  unfold well_formed, projected_rows. destruct (file_content f); [|done].
  intros Hm. by rewrite decide_False.
Qed.

Lemma rows_read_skipped f : ¬ well_formed f → rows_read f = 0.
Proof.
  unfold well_formed, rows_read. destruct (file_content f); [|done].
  intros Hm. by rewrite decide_False.
Qed.

Lemma projected_rows_two f : Forall (λ r, length r = 2) (projected_rows f).
Proof.
  unfold projected_rows. destruct (file_content f); [|done].
  case_decide; [apply projected_two|done].
Qed.

Lemma all_rows_two pre : Forall (λ r, length r = 2) (all_rows pre).
Proof.
  induction pre as [|f pre IH]; simpl; [done|].
  apply Forall_app. split; [apply projected_rows_two|done].
Qed.

Lemma all_rows_none pre : ¬ Exists well_formed pre → all_rows pre = [].
Proof.
  induction pre as [|f pre IH]; simpl; [done|].
  rewrite Exists_cons. intros H.
  rewrite projected_rows_skipped, IH; naive_solver.
Qed.

Lemma duplicates_total_app prior pre files :
  duplicates_total prior (pre ++ files) =
  duplicates_total prior pre + duplicates_total (prior ++ all_rows pre) files.
Proof.
  revert prior. induction pre as [|f pre IH]; intros prior.
  - simpl. by rewrite app_nil_r.
  - rewrite all_rows_cons. cbn [duplicates_total app].
    rewrite IH, <- app_assoc. lia.
Qed.

Lemma loop_events_app n i prior pre files :
  loop_events n i prior (pre ++ files) =
  loop_events n i prior pre ++
  loop_events n (i + length pre) (prior ++ all_rows pre) files.
Proof.
  revert i prior. induction pre as [|f pre IH]; intros i prior.
  - simpl. by rewrite app_nil_r, Nat.add_0_r.
  - rewrite all_rows_cons. cbn [loop_events app length].
    rewrite IH, <- !app_assoc. do 3 f_equal. lia.
Qed.

Lemma state_after_tidy n es pre : tidy (all_data (state_after n es pre)).
Proof.
  unfold tidy, state_after. simpl. case_decide as Hex.
  - right. split; [done|]. simpl. apply Forall_forall. intros r Hr.
    apply elem_of_drop_dups in Hr as [Hr _].
    revert r Hr. apply Forall_forall, all_rows_two.
  - left. by rewrite all_rows_none.
Qed.

Lemma state_after_snoc n es pre f :
  state_after n es (pre ++ [f]) =
  mkState
    (mkDataFrame
       (if decide (well_formed f) then required_columns
        else columns (all_data (state_after n es pre)))
       (drop_dups [] (all_rows pre ++ projected_rows f)))
    (total_rows_before (state_after n es pre) + rows_read f)
    (total_duplicates (state_after n es pre) +
     duplicates_against (all_rows pre) (projected_rows f))
    (effects (state_after n es pre) ++
     file_events n (S (length pre)) (all_rows pre) f).
Proof.
  unfold state_after. cbn [all_data total_rows_before total_duplicates effects columns].
  rewrite all_rows_snoc, fmap_app, sum_list_with_app, duplicates_total_app,
    loop_events_app.
  cbn [fmap list_fmap sum_list_with sum_list duplicates_total loop_events app].
  change (1 + length pre) with (S (length pre)). unfold id.
  rewrite !app_nil_r, !Nat.add_0_r, <- app_assoc.
  f_equal. f_equal.
  repeat case_decide; try done;
    rewrite Exists_app, Exists_cons, Exists_nil in *; naive_solver.
Qed.

(** One more file takes [state_after pre] to [state_after (pre ++ [f])]. *)
Lemma loop_body_state_after n es pre f :
  loop_body n (S (length pre)) f (state_after n es pre) =
  (Return tt, state_after n es (pre ++ [f])).
Proof.
  pose proof (state_after_tidy n es pre) as Htidy.
  rewrite state_after_snoc.
  destruct (file_content f) as [df|e] eqn:Hf;
    [destruct (decide (missing df = [])) as [Hm|Hm]|].
  - rewrite (loop_body_well_formed _ _ _ df) by done.
    assert (Hwf : well_formed f) by (unfold well_formed; by rewrite Hf).
    rewrite (projected_rows_well_formed f df), decide_True by done.
    unfold file_events, rows_read. rewrite Hf, Hm, decide_True by done.
    cbn [all_data values state_after].
    by rewrite drop_dups_absorb, duplicates_against_drop_dups.
  - rewrite (loop_body_missing _ _ _ df) by done.
    assert (Hnw : ¬ well_formed f) by (unfold well_formed; by rewrite Hf).
    rewrite projected_rows_skipped, rows_read_skipped, decide_False by done.
    unfold file_events. rewrite Hf.
    destruct (missing df) as [|c m] eqn:E; [done|].
    change (duplicates_against (all_rows pre) []) with 0.
    by rewrite !app_nil_r, !Nat.add_0_r.
  - rewrite (loop_body_unreadable _ _ _ e) by done.
    assert (Hnw : ¬ well_formed f) by (unfold well_formed; rewrite Hf; tauto).
    rewrite projected_rows_skipped, rows_read_skipped, decide_False by done.
    unfold file_events. rewrite Hf.
    change (duplicates_against (all_rows pre) []) with 0.
    by rewrite !app_nil_r, !Nat.add_0_r.
Qed.

(** The loop never raises, and it walks [state_after] along the files. *)
Lemma for_enumerate_state_after n es files : ∀ pre,
  for_enumerate (loop_body n) (S (length pre)) files (state_after n es pre) =
  (Return tt, state_after n es (pre ++ files)).
Proof.
  induction files as [|f files IH]; intros pre; simpl.
  - by rewrite app_nil_r.
  - unfold mbind, M_bind. rewrite loop_body_state_after.
    replace (S (S (length pre))) with (S (length (pre ++ [f])))
      by (rewrite length_app; simpl; lia).
    unfold mbind, M_bind in IH. rewrite IH. by rewrite <- app_assoc.
Qed.

Lemma after_files_state_after n pre st :
  after_files n pre st ↔ ∃ es, st = state_after n es pre.
Proof.
  unfold after_files.
  split; intros [es H]; exists es;
    pose proof (for_enumerate_state_after n es pre []) as Hrun;
    simpl in Hrun; change (state_after n es []) with (mkState empty_frame 0 0 (es ++ [])) in Hrun;
    rewrite app_nil_r in Hrun; congruence.
Qed.

(** The running total only counts the files that were not skipped. *)
Lemma sum_rows_read files :
  sum_list (rows_read <$> files) =
  sum_list (loaded_rows <$> filter well_formed files).
Proof.
  induction files as [|f files IH]; [done|].
  rewrite filter_cons, fmap_cons. cbn [sum_list sum_list_with]. rewrite IH.
  destruct (decide (well_formed f)) as [Hw|Hw].
  - rewrite fmap_cons. cbn [sum_list sum_list_with]. f_equal.
    unfold well_formed in Hw. unfold rows_read, loaded_rows.
    destruct (file_content f) as [df|e]; [|done]. by rewrite decide_True.
  - by rewrite rows_read_skipped.
Qed.
End accumulation.

(** ** Summary, export and the whole function *)

Section whole_run.
Implicit Types (f : xlsx_file) (files : list xlsx_file).

Lemma finalize_spec output_file st :
  finalize output_file st =
  (Return tt,
   mkState (all_data st) (total_rows_before st) (total_duplicates st)
     (effects st ++ final_events output_file st)).
Proof.
  unfold finalize, final_events, export_events, mbind, M_bind, emit, get.
  simpl. destruct (negb (empty (all_data st))); simpl;
    by rewrite <- !app_assoc.
Qed.

Lemma file_events_per_file n i prior f :
  Forall per_file_event (file_events n i prior f).
Proof.
  unfold file_events. destruct (file_content f) as [df|e].
  - destruct (missing df); repeat constructor.
  - repeat constructor.
Qed.

Lemma loop_events_per_file n files : ∀ i prior,
  Forall per_file_event (loop_events n i prior files).
Proof.
  induction files as [|f files IH]; intros i prior; cbn [loop_events]; [done|].
  apply Forall_app. split; [apply file_events_per_file|apply IH].
Qed.

(** The function on an existing folder with at least one file: it
    returns, and its final state is read off [state_after]. *)
Lemma merge_xlsx_files_run f files input_folder output_file :
  let xlsx_files := f :: files in
  let n := length xlsx_files in
  let st := state_after n [PrintFound n; PrintRule] xlsx_files in
  merge_xlsx_files (Some xlsx_files) input_folder output_file start =
  (Return tt,
   mkState (all_data st) (total_rows_before st) (total_duplicates st)
     (effects st ++ final_events output_file st)).
Proof.
  intros xlsx_files n st. unfold merge_xlsx_files. fold xlsx_files. fold n.
  unfold xlsx_files at 1.
  unfold mbind, M_bind at 1 2 3 4 5 6.
  unfold emit, set_all_data, set_total_rows_before, set_total_duplicates.
  cbn [all_data total_rows_before total_duplicates effects start app].
  pose proof (for_enumerate_state_after n [PrintFound n; PrintRule] xlsx_files [])
    as Hloop.
  cbn [length app] in Hloop.
  change (state_after n [PrintFound n; PrintRule] [])
    with (mkState empty_frame 0 0 [PrintFound n; PrintRule]) in Hloop.
  rewrite Hloop. fold st. apply finalize_spec.
Qed.

(** Whatever is written is the final table, and it is not empty. *)
Lemma merge_xlsx_files_written f files input_folder output_file :
  ∃ st',
    merge_xlsx_files (Some (f :: files)) input_folder output_file start
      = (Return tt, st') ∧
    tidy (all_data st') ∧
    ∀ path df, WriteCsv path df ∈ effects st' →
      path = output_file ∧ df = all_data st' ∧ empty df = false.
Proof.
  eexists. split; [apply merge_xlsx_files_run|].
  cbn [all_data effects]. split; [apply state_after_tidy|].
  set (st := state_after _ _ _).
  intros path df. unfold st at 1. cbn [effects state_after].
  rewrite !elem_of_app. intros [[Hin|Hin]|Hin].
  - set_solver.
  - pose proof (loop_events_per_file (length (f :: files)) (f :: files) 1 [])
      as Hpf.
    rewrite Forall_forall in Hpf. by apply Hpf in Hin.
  - unfold final_events, export_events in Hin.
    destruct (empty (all_data st)) eqn:He; simpl in Hin; [set_solver|].
    rewrite !elem_of_cons, elem_of_nil in Hin.
    destruct_or!; by simplify_eq.
Qed.
End whole_run.

(** ** The export on a storage that can refuse *)

Section refusing_storage.
Implicit Types (io : storage) (st : state).


Lemma final_events_summary output_file st :
  final_events output_file st =
  summary_events st ++ export_events output_file (all_data st).
Proof. done. Qed.

(** The export step either does what it does on a storage that takes the
    file, or stops at the write with the error of the storage. *)
Lemma finalize_on_spec io output_file st :
  finalize_on io output_file st =
  match (if empty (all_data st) then None
         else to_csv_error io output_file (all_data st)) with
  | None => finalize output_file st
  | Some e =>
      (Raise e,
       mkState (all_data st) (total_rows_before st) (total_duplicates st)
         (effects st ++ summary_events st))
  end.
Proof.
  rewrite finalize_spec.
  unfold finalize_on, final_events, summary_events, export_events, to_csv,
    mbind, M_bind, emit, get, raise.
  simpl. destruct (empty (all_data st)); simpl.
  - by rewrite <- !app_assoc.
  - destruct (to_csv_error io output_file (all_data st)); simpl;
      by rewrite <- !app_assoc.
Qed.

(** Up to the export a run does not depend on the storage. *)
Lemma merge_xlsx_files_on_run io f files input_folder output_file :
  let xlsx_files := f :: files in
  let n := length xlsx_files in
  merge_xlsx_files_on io (Some xlsx_files) input_folder output_file start =
  finalize_on io output_file (state_after n [PrintFound n; PrintRule] xlsx_files).
Proof.
  intros xlsx_files n. unfold merge_xlsx_files_on. fold xlsx_files. fold n.
  unfold xlsx_files at 1.
  unfold mbind, M_bind at 1 2 3 4 5 6.
  unfold emit, set_all_data, set_total_rows_before, set_total_duplicates.
  cbn [all_data total_rows_before total_duplicates effects start app].
  pose proof (for_enumerate_state_after n [PrintFound n; PrintRule] xlsx_files [])
    as Hloop.
  cbn [length app] in Hloop.
  change (state_after n [PrintFound n; PrintRule] [])
    with (mkState empty_frame 0 0 [PrintFound n; PrintRule]) in Hloop.
  by rewrite Hloop.
Qed.

Lemma summary_events_not_export st :
  Forall (λ ev, ¬ export_event ev) (summary_events st).
Proof. unfold summary_events. repeat constructor; tauto. Qed.

Lemma per_file_event_not_export ev : per_file_event ev → ¬ export_event ev.
Proof. destruct ev; cbn; tauto. Qed.

(** A run on the storage [io], against the run on a storage that takes
    the file: the same, unless the final table is not empty and the write
    is refused; then the run ends in the error of the write, with the same
    table and totals, having shown everything but the export. *)
Lemma merge_xlsx_files_on_cases io folder input_folder output_file :
  ∃ st,
    merge_xlsx_files folder input_folder output_file start = (Return tt, st) ∧
    match (if empty (all_data st) then None
           else to_csv_error io output_file (all_data st)) with
    | None =>
        merge_xlsx_files_on io folder input_folder output_file start
          = (Return tt, st)
    | Some e =>
        ∃ shown,
          merge_xlsx_files_on io folder input_folder output_file start =
          (Raise e,
           mkState (all_data st) (total_rows_before st) (total_duplicates st)
             shown) ∧
          effects st = shown ++ export_events output_file (all_data st) ∧
          Forall (λ ev, ¬ export_event ev) shown
    end.
Proof.
  destruct folder as [[|f files]|].
  - eexists. split; [reflexivity|]. done.
  - eexists. split; [apply merge_xlsx_files_run|].
    cbn [all_data total_rows_before total_duplicates effects].
    rewrite merge_xlsx_files_on_run, finalize_on_spec, finalize_spec.
    set (st := state_after _ _ _).
    destruct (if empty (all_data st) then None else _) as [e|]; [|done].
    eexists. split; [done|]. split.
    + by rewrite final_events_summary, app_assoc.
    + apply Forall_app. split; [|apply summary_events_not_export].
      unfold st. cbn [effects state_after]. apply Forall_app. split.
      * repeat constructor; tauto.
      * eapply Forall_impl; [apply loop_events_per_file|].
        apply per_file_event_not_export.
  - eexists. split; [reflexivity|]. done.
Qed.

(** On a storage that takes the file the two programs are one. *)
Lemma merge_xlsx_files_on_accepting folder input_folder output_file :
  merge_xlsx_files_on accepting folder input_folder output_file start =
  merge_xlsx_files folder input_folder output_file start.
Proof.
  destruct (merge_xlsx_files_on_cases accepting folder input_folder output_file)
    as (st & Hrun & Hon).
  cbn [to_csv_error accepting] in Hon.
  destruct (empty (all_data st)); congruence.
Qed.
End refusing_storage.

(** ** Concrete runs *)

Module Runs.
Import Scenarios.

(** Two files sharing one record: three rows are written and the second
    file reports one duplicate. *)
Example two_files_one_shared :
  merge_xlsx_files (Some [file1; file2]) "xlsx_files" "merged_output.csv" start =
  (Return tt,
   mkState (sheet [record "Q1" "A1"; record "Q2" "A2"; record "Q3" "A3"]) 4 1
     [PrintFound 2; PrintRule;
      PrintProcessing 1 2 "file1.xlsx"; PrintFileInfo 2 2; PrintFiltered;
      PrintDuplicates 0; PrintRunningTotal 2;
      PrintProcessing 2 2 "file2.xlsx"; PrintFileInfo 2 2; PrintFiltered;
      PrintDuplicates 1; PrintRunningTotal 3;
      PrintRule; PrintDone; PrintTotalRead 4; PrintTotalDuplicates 1;
      PrintFinalRows 3; PrintRule;
      WriteCsv "merged_output.csv"
        (sheet [record "Q1" "A1"; record "Q2" "A2"; record "Q3" "A3"]);
      PrintExported "merged_output.csv";
      PrintExportedColumns ["題目"; "答案"];
      PrintExportedRows 3]).
Proof. vm_compute. reflexivity. Qed.

(** A file with the wrong column names is skipped and named as such. *)
Example wrong_names_skipped :
  merge_xlsx_files (Some [wrong_names]) "xlsx_files" "merged_output.csv" start =
  (Return tt,
   mkState empty_frame 0 0
     [PrintFound 1; PrintRule;
      PrintProcessing 1 1 "wrong_names.xlsx"; PrintFileInfo 1 2;
      PrintMissingColumns ["題目"; "答案"];
      PrintPresentColumns ["Question"; "Ans"];
      PrintRule; PrintDone; PrintTotalRead 0; PrintTotalDuplicates 0;
      PrintFinalRows 0; PrintRule; PrintNothingToExport]).
Proof. vm_compute. reflexivity. Qed.

(** A folder without spreadsheets: a warning, nothing written. *)
Example empty_folder :
  merge_xlsx_files (Some []) "xlsx_files" "merged_output.csv" start =
  (Return tt,
   mkState empty_frame 0 0
     [PrintNoFiles "xlsx_files"; PrintPutFilesHere "xlsx_files"]).
Proof. reflexivity. Qed.

(** A record repeated inside the only file: one row written, no
    duplicate reported. *)
Example repeated_inside_one_file :
  merge_xlsx_files (Some [repeated]) "xlsx_files" "merged_output.csv" start =
  (Return tt,
   mkState (sheet [record "Q1" "A1"]) 2 0
     [PrintFound 1; PrintRule;
      PrintProcessing 1 1 "repeated.xlsx"; PrintFileInfo 2 2; PrintFiltered;
      PrintDuplicates 0; PrintRunningTotal 1;
      PrintRule; PrintDone; PrintTotalRead 2; PrintTotalDuplicates 0;
      PrintFinalRows 1; PrintRule;
      WriteCsv "merged_output.csv" (sheet [record "Q1" "A1"]);
      PrintExported "merged_output.csv";
      PrintExportedColumns ["題目"; "答案"];
      PrintExportedRows 1]).
Proof. vm_compute. reflexivity. Qed.

(** Extra and swapped columns: the rows enter as (question, answer). *)
Example shuffled_columns_projected :
  all_data after_shuffled = sheet [record "Q1" "A1"; record "Q4" "A4"].
Proof. vm_compute. reflexivity. Qed.

(** A corrupt file between two good ones changes no count. *)
Example corrupt_between_two_files :
  let run files :=
    (merge_xlsx_files (Some files) "xlsx_files" "merged_output.csv" start).2 in
  let st := run [file1; corrupt; file2] in
  let st' := run [file1; file2] in
  (all_data st, total_rows_before st, total_duplicates st) =
  (all_data st', total_rows_before st', total_duplicates st').
Proof. vm_compute. reflexivity. Qed.
End Runs.

(** * Properties *)

(** ** Duplicate accounting *)

(** C1. For a well-formed file, met in any state the loop can be in, the
    iteration returns and the duplicate count it prints is the number of
    the file's projected rows that occur among the rows the table held
    before the file was appended.  Rows that only repeat other rows of the
    same file do not enter that number, and it is 0 when the table held no
    row, whatever the file repeats internally. *)
Theorem C1_count_against_prior_table n pre st i f df :
  after_files n pre st →
  file_content f = Loaded df → missing df = [] →
  ∃ st',
    loop_body n i f st = (Return tt, st') ∧
    effects st' =
      effects st ++
      [PrintProcessing i n (file_name f);
       PrintFileInfo (len df) (length (columns df));
       PrintFiltered;
       PrintDuplicates
         (length (filter (λ r, r ∈ values (all_data st)) (projected df)));
       PrintRunningTotal (len (all_data st'))] ∧
    (len (all_data st) = 0 →
     length (filter (λ r, r ∈ values (all_data st)) (projected df)) = 0).
Proof.
  intros Hst Hf Hm.
  apply after_files_state_after in Hst as [es ->].
  eexists. split.
  - apply (loop_body_well_formed n i f df); [done..|apply state_after_tidy].
  - split; [done|]. intros Hlen.
    apply length_zero_iff_nil in Hlen. rewrite Hlen.
    apply duplicates_against_nil.
Qed.

Lemma C1_count_against_prior_table_witness :
  let st := Scenarios.after_file1 in
  let df := Scenarios.sheet [Scenarios.record "Q1" "A1";
                             Scenarios.record "Q3" "A3"] in
  ∃ st',
    loop_body 2 2 Scenarios.file2 st = (Return tt, st') ∧
    effects st' =
      effects st ++
      [PrintProcessing 2 2 "file2.xlsx";
       PrintFileInfo (len df) (length (columns df));
       PrintFiltered;
       PrintDuplicates
         (length (filter (λ r, r ∈ values (all_data st)) (projected df)));
       PrintRunningTotal (len (all_data st'))] ∧
    (len (all_data st) = 0 →
     length (filter (λ r, r ∈ values (all_data st)) (projected df)) = 0).
Proof.
  intros st df.
  apply (C1_count_against_prior_table 2 [Scenarios.file1] st 2 Scenarios.file2 df).
  - exists []. vm_compute. reflexivity.
  - reflexivity.
  - reflexivity.
Defined.

(** C3. The stored table is deduplicated after every file, yet the count a
    well-formed file reports is the one taken against the raw accumulation:
    the number of its projected rows that occur anywhere in the
    concatenation, nothing removed, of the projected rows of all earlier
    well-formed files. *)
Theorem C3_count_against_raw_accumulation n pre st i f df :
  after_files n pre st →
  file_content f = Loaded df → missing df = [] →
  values (all_data st) = drop_dups [] (all_rows pre) ∧
  ∃ st',
    loop_body n i f st = (Return tt, st') ∧
    values (all_data st') = drop_dups [] (all_rows (pre ++ [f])) ∧
    ∃ k,
      effects st' =
        effects st ++
        [PrintProcessing i n (file_name f);
         PrintFileInfo (len df) (length (columns df));
         PrintFiltered;
         PrintDuplicates
           (length (filter (λ r, r ∈ all_rows pre) (projected df)));
         PrintRunningTotal k].
Proof.
  intros Hst Hf Hm.
  apply after_files_state_after in Hst as [es ->].
  split; [done|]. eexists. split.
  - apply (loop_body_well_formed n i f df); [done..|apply state_after_tidy].
  - cbn [all_data values effects state_after]. split.
    + by rewrite all_rows_snoc, (projected_rows_well_formed f df),
        drop_dups_absorb.
    + eexists.
      by rewrite (duplicates_against_drop_dups (all_rows pre) (projected df)).
Qed.

Lemma C3_count_against_raw_accumulation_witness :
  let st := Scenarios.after_repeated in
  let df := Scenarios.sheet [Scenarios.record "Q1" "A1";
                             Scenarios.record "Q3" "A3"] in
  values (all_data st) = drop_dups [] (all_rows [Scenarios.repeated]) ∧
  ∃ st',
    loop_body 2 2 Scenarios.file2 st = (Return tt, st') ∧
    values (all_data st') =
      drop_dups [] (all_rows ([Scenarios.repeated] ++ [Scenarios.file2])) ∧
    ∃ k,
      effects st' =
        effects st ++
        [PrintProcessing 2 2 "file2.xlsx";
         PrintFileInfo (len df) (length (columns df));
         PrintFiltered;
         PrintDuplicates
           (length (filter (λ r, r ∈ all_rows [Scenarios.repeated])
                      (projected df)));
         PrintRunningTotal k].
Proof.
  intros st df.
  apply (C3_count_against_raw_accumulation 2 [Scenarios.repeated] st 2
           Scenarios.file2 df).
  - exists []. vm_compute. reflexivity.
  - reflexivity.
  - reflexivity.
Defined.

(** ** The written table *)

(** C2. On a folder with at least one file the function returns, and the
    table it ends with, which is the only table it ever writes, is the
    first-occurrence deduplication of the concatenation of the projected
    rows of all files: it holds every such row, holds none twice, and any
    two rows it holds stand in the order of their first arrival. *)
Theorem C2_final_table_is_first_occurrence_dedup f files input_folder output_file :
  let xlsx_files := f :: files in
  ∃ st',
    merge_xlsx_files (Some xlsx_files) input_folder output_file start
      = (Return tt, st') ∧
    values (all_data st') = drop_dups [] (all_rows xlsx_files) ∧
    (∀ r, r ∈ values (all_data st') ↔ r ∈ all_rows xlsx_files) ∧
    NoDup (values (all_data st')) ∧
    (∀ l1 a l2 b l3,
       all_rows xlsx_files = l1 ++ a :: l2 ++ b :: l3 →
       a ∉ l1 → b ∉ l1 ++ a :: l2 →
       ∃ o1 o2 o3, values (all_data st') = o1 ++ a :: o2 ++ b :: o3) ∧
    (∀ path df, WriteCsv path df ∈ effects st' →
       path = output_file ∧ df = all_data st').
Proof.
  intros xlsx_files. eexists. split; [apply merge_xlsx_files_run|].
  cbn [all_data values effects state_after]. fold xlsx_files.
  split; [done|]. split; [|split; [|split]].
  - intros r. rewrite elem_of_drop_dups. set_solver.
  - apply NoDup_drop_dups.
  - intros l1 a l2 b l3 -> Ha Hb. by apply drop_dups_order.
  - intros path df. rewrite !elem_of_app.
    intros [[Hin|Hin]|Hin].
    + set_solver.
    + pose proof (loop_events_per_file (length xlsx_files) xlsx_files 1 []) as Hpf.
      rewrite Forall_forall in Hpf. by apply Hpf in Hin.
    + unfold final_events, export_events in Hin.
      cbn [all_data total_rows_before total_duplicates] in Hin.
      destruct (negb (empty _)); set_solver.
Qed.

Lemma C2_final_table_is_first_occurrence_dedup_witness :
  let q1 := Scenarios.record "Q1" "A1" in
  let q2 := Scenarios.record "Q2" "A2" in
  let q3 := Scenarios.record "Q3" "A3" in
  ∃ st',
    merge_xlsx_files (Some [Scenarios.file1; Scenarios.file2])
      "xlsx_files" "merged_output.csv" start = (Return tt, st') ∧
    values (all_data st') = [q1; q2; q3] ∧
    ∃ o1 o2 o3, values (all_data st') = o1 ++ q1 :: o2 ++ q3 :: o3.
Proof.
  intros q1 q2 q3.
  destruct (C2_final_table_is_first_occurrence_dedup Scenarios.file1
              [Scenarios.file2] "xlsx_files" "merged_output.csv")
    as (st' & Hrun & Hvalues & _ & _ & Horder & _).
  exists st'. split; [exact Hrun|]. split; [exact Hvalues|].
  apply (Horder [] q1 [q2; q1] q3 []).
  - reflexivity.
  - apply not_elem_of_nil.
  - vm_compute. intros Hin. repeat (apply elem_of_cons in Hin as [Hin|Hin]; [discriminate Hin|]).
    by apply elem_of_nil in Hin.
Defined.

(** ** Life of the table across the run *)

(** C4, as the code has it.  The table starts as [pd.DataFrame()].  Every
    iteration returns and leaves the table deduplicated (line 108 runs for
    each well-formed file, not once at the end): the table after the file
    is the deduplication of the table before it followed by the file's
    projected rows.  From one file to the next no stored row is lost: the
    table before the file is an initial segment of the table after it.
    The summary and export step changes nothing in the table. *)
Theorem C4_table_deduplicated_every_file n pre st i f :
  after_files n pre st →
  (pre = [] → all_data st = empty_frame) ∧
  ∃ st',
    loop_body n i f st = (Return tt, st') ∧
    values (all_data st') =
      drop_dups [] (values (all_data st) ++ projected_rows f) ∧
    NoDup (values (all_data st')) ∧
    values (all_data st) `prefix_of` values (all_data st') ∧
    ∀ output_file, ∃ st'',
      finalize output_file st' = (Return tt, st'') ∧
      all_data st'' = all_data st'.
Proof.
  intros Hst. pose proof Hst as [es Hrun].
  apply after_files_state_after in Hst as [es' ->].
  split; [by intros ->|].
  assert (Hstep : ∃ st', loop_body n i f (state_after n es' pre) = (Return tt, st') ∧
    values (all_data st') =
      drop_dups [] (drop_dups [] (all_rows pre) ++ projected_rows f)).
  { pose proof (state_after_tidy n es' pre) as Htidy.
    destruct (file_content f) as [df|e] eqn:Hf;
      [destruct (decide (missing df = [])) as [Hm|Hm]|].
    - eexists. split; [by apply (loop_body_well_formed n i f df)|].
      by rewrite (projected_rows_well_formed f df).
    - eexists. split; [by apply (loop_body_missing n i f df)|].
      rewrite projected_rows_skipped by (unfold well_formed; by rewrite Hf).
      cbn [all_data values state_after].
      by rewrite app_nil_r, drop_dups_idemp.
    - eexists. split; [by apply (loop_body_unreadable n i f e)|].
      rewrite projected_rows_skipped by (unfold well_formed; rewrite Hf; tauto).
      cbn [all_data values state_after].
      by rewrite app_nil_r, drop_dups_idemp. }
  destruct Hstep as (st' & Hbody & Hvalues).
  exists st'. cbn [all_data values state_after].
  split; [done|]. split; [done|]. rewrite Hvalues. split; [|split].
  - apply NoDup_drop_dups.
  - rewrite drop_dups_app, drop_dups_idemp. by eexists.
  - intros output_file. eexists. split; [apply finalize_spec|done].
Qed.

Lemma C4_table_deduplicated_every_file_witness :
  let st := Scenarios.after_repeated in
  (([Scenarios.repeated] : list xlsx_file) = [] → all_data st = empty_frame) ∧
  ∃ st',
    loop_body 2 2 Scenarios.file2 st = (Return tt, st') ∧
    values (all_data st') =
      drop_dups [] (values (all_data st) ++ projected_rows Scenarios.file2) ∧
    NoDup (values (all_data st')) ∧
    values (all_data st) `prefix_of` values (all_data st') ∧
    ∀ output_file, ∃ st'',
      finalize output_file st' = (Return tt, st'') ∧
      all_data st'' = all_data st'.
Proof.
  intros st.
  apply (C4_table_deduplicated_every_file 2 [Scenarios.repeated] st 2
           Scenarios.file2).
  exists []. vm_compute. reflexivity.
Defined.

(** C4 as stated fails: of the two rows that [repeated] appends, one is
    already gone from the table when the loop moves on to the next file,
    and the summary and export step then removes nothing. *)
Lemma C4_counterexample_dedup_between_files :
  ∃ st st',
    for_enumerate (loop_body 2) 1 [Scenarios.repeated]
      (mkState empty_frame 0 0 []) = (Return tt, st) ∧
    length (all_rows [Scenarios.repeated]) = 2 ∧
    len (all_data st) = 1 ∧
    finalize "merged_output.csv" st = (Return tt, st') ∧
    len (all_data st') = len (all_data st).
Proof.
  eexists. eexists. split; [vm_compute; reflexivity|].
  split; [reflexivity|]. split; [reflexivity|].
  split; [vm_compute; reflexivity|reflexivity].
Qed.

(** ** Skipped files *)

(** C5. A file that fails to load, or that lacks a required column, does
    not stop the loop: its iteration returns, the table and both running
    totals are what they were, no duplicate count is shown for it, and the
    loop goes on with the next file from that state. *)
Theorem C5_skipped_file_contributes_nothing n i f rest st :
  (∃ e, file_content f = Unreadable e) ∨
  (∃ df, file_content f = Loaded df ∧ missing df ≠ []) →
  ∃ st' shown,
    loop_body n i f st = (Return tt, st') ∧
    all_data st' = all_data st ∧
    total_rows_before st' = total_rows_before st ∧
    total_duplicates st' = total_duplicates st ∧
    effects st' = effects st ++ shown ∧
    (∀ d, PrintDuplicates d ∉ shown) ∧
    (∀ k, PrintRunningTotal k ∉ shown) ∧
    for_enumerate (loop_body n) i (f :: rest) st =
    for_enumerate (loop_body n) (S i) rest st'.
Proof.
  intros [[e Hf]|(df & Hf & Hm)].
  - eexists. eexists. cbn [for_enumerate]. unfold mbind, M_bind.
    rewrite (loop_body_unreadable n i f e st Hf).
    cbn [all_data total_rows_before total_duplicates effects].
    repeat split; set_solver.
  - eexists. eexists. cbn [for_enumerate]. unfold mbind, M_bind.
    rewrite (loop_body_missing n i f df st Hf Hm).
    cbn [all_data total_rows_before total_duplicates effects].
    repeat split; set_solver.
Qed.

Lemma C5_skipped_file_contributes_nothing_witness :
  let st := Scenarios.after_file1 in
  ∃ st' shown,
    loop_body 3 2 Scenarios.wrong_names st = (Return tt, st') ∧
    all_data st' = all_data st ∧
    total_rows_before st' = total_rows_before st ∧
    total_duplicates st' = total_duplicates st ∧
    effects st' = effects st ++ shown ∧
    (∀ d, PrintDuplicates d ∉ shown) ∧
    (∀ k, PrintRunningTotal k ∉ shown) ∧
    for_enumerate (loop_body 3) 2
      (Scenarios.wrong_names :: [Scenarios.file2]) st =
    for_enumerate (loop_body 3) 3 [Scenarios.file2] st'.
Proof.
  intros st.
  apply (C5_skipped_file_contributes_nothing 3 2 Scenarios.wrong_names
           [Scenarios.file2] st).
  right. eexists. split; [reflexivity|]. vm_compute. discriminate.
Defined.

(** ** Totals and export *)

(** C6. Every run returns, and the only total it can show as read is the
    sum of the loaded row counts of exactly the well-formed files, skipped
    files adding nothing.  A run that gets past discovery (the folder is
    there and holds a file) does show it. *)
Theorem C6_total_rows_read folder input_folder output_file :
  let xlsx_files := default [] folder in
  let total := sum_list (loaded_rows <$> filter well_formed xlsx_files) in
  ∃ st',
    merge_xlsx_files folder input_folder output_file start = (Return tt, st') ∧
    (∀ t, PrintTotalRead t ∈ effects st' → t = total) ∧
    (xlsx_files ≠ [] →
       total_rows_before st' = total ∧ PrintTotalRead total ∈ effects st').
Proof.
  intros xlsx_files total.
  destruct folder as [[|f files]|].
  - eexists. split; [reflexivity|]. cbn [effects]. split; [set_solver|done].
  - eexists. split; [apply merge_xlsx_files_run|].
    cbn [all_data total_rows_before effects state_after default] in *.
    fold xlsx_files. unfold total. rewrite <- sum_rows_read. split.
    + intros t. rewrite !elem_of_app. intros [[Hin|Hin]|Hin].
      * set_solver.
      * pose proof (loop_events_per_file (length xlsx_files) xlsx_files 1 [])
          as Hpf.
        rewrite Forall_forall in Hpf. by apply Hpf in Hin.
      * unfold final_events, export_events in Hin.
        cbn [all_data total_rows_before total_duplicates] in Hin.
        destruct (negb (empty _)); set_solver.
    + intros _. split; [done|]. rewrite !elem_of_app. right.
      unfold final_events. cbn [total_rows_before]. set_solver.
  - eexists. split; [reflexivity|]. cbn [effects]. split; [set_solver|done].
Qed.

Lemma C6_total_rows_read_witness :
  let xlsx_files :=
    [Scenarios.file1; Scenarios.wrong_names; Scenarios.corrupt;
     Scenarios.shuffled] in
  ∃ st',
    merge_xlsx_files (Some xlsx_files) "xlsx_files" "merged_output.csv" start
      = (Return tt, st') ∧
    total_rows_before st' = 4 ∧ PrintTotalRead 4 ∈ effects st'.
Proof.
  intros xlsx_files.
  destruct (C6_total_rows_read (Some xlsx_files) "xlsx_files" "merged_output.csv")
    as (st' & Hrun & _ & Hshown).
  exists st'. split; [exact Hrun|]. apply Hshown. discriminate.
Defined.




(** C8, as the code has it.  When the input folder does not exist, the
    function raises nothing: it shows one message that names the folder and
    returns, with no file looked at, no total touched and nothing
    written. *)
Theorem C8_missing_folder_message_and_return input_folder output_file :
  merge_xlsx_files None input_folder output_file start =
  (Return tt, mkState empty_frame 0 0 [PrintFolderMissing input_folder]).
Proof. reflexivity. Qed.

(** C8 as stated fails: on a missing folder the function does not end in
    an error of any kind. *)
Lemma C8_counterexample_no_error_raised :
  ¬ ∃ e st',
      merge_xlsx_files None "xlsx_files" "merged_output.csv" start
        = (Raise e, st').
Proof. intros (e & st' & H). discriminate H. Qed.

(** ** Deduplication *)

(** C9. Deduplicating a table twice gives what deduplicating it once
    gives. *)
Theorem C9_drop_duplicates_idempotent (X : DataFrame) :
  drop_duplicates (drop_duplicates X) = drop_duplicates X.
Proof.
  unfold drop_duplicates. cbn [columns values]. by rewrite drop_dups_idemp.
Qed.

(** ** Columns of the table *)

(** C10, as the code has it.  Until a well-formed file has been processed
    the table is still [pd.DataFrame()], which has no column.  From the
    first well-formed file on, its columns are exactly the two required
    labels in their fixed order, whatever the order of the columns in the
    files and whatever other columns they have.  Whenever the function
    writes a table, that table has exactly these two columns in this
    order. *)
Theorem C10_columns_of_table n pre st :
  after_files n pre st →
  (Exists well_formed pre → columns (all_data st) = ["題目"; "答案"]) ∧
  (¬ Exists well_formed pre → all_data st = empty_frame) ∧
  ∀ f files input_folder output_file, ∃ st',
    merge_xlsx_files (Some (f :: files)) input_folder output_file start
      = (Return tt, st') ∧
    ∀ path df, WriteCsv path df ∈ effects st' →
      columns df = ["題目"; "答案"].
Proof.
  intros Hst. apply after_files_state_after in Hst as [es ->].
  cbn [all_data columns state_after]. split; [|split].
  - intros Hex. by rewrite decide_True.
  - intros Hex. by rewrite decide_False, all_rows_none.
  - intros f files input_folder output_file.
    destruct (merge_xlsx_files_written f files input_folder output_file)
      as (st' & Hrun & Htidy & Hw).
    exists st'. split; [done|]. intros path df Hin.
    apply Hw in Hin as (_ & -> & He).
    destruct Htidy as [Ht|[Hc _]]; [|done].
    rewrite Ht in He. done.
Qed.

Lemma C10_columns_of_table_witness :
  let st := Scenarios.after_shuffled in
  (Exists well_formed [Scenarios.shuffled] →
     columns (all_data st) = ["題目"; "答案"]) ∧
  (¬ Exists well_formed [Scenarios.shuffled] → all_data st = empty_frame) ∧
  ∀ f files input_folder output_file, ∃ st',
    merge_xlsx_files (Some (f :: files)) input_folder output_file start
      = (Return tt, st') ∧
    ∀ path df, WriteCsv path df ∈ effects st' →
      columns df = ["題目"; "答案"].
Proof.
  intros st.
  apply (C10_columns_of_table 2 [Scenarios.shuffled] st).
  exists []. vm_compute. reflexivity.
Defined.

(** C10 as stated fails: when the first file is skipped, the table after
    its iteration still has no column at all. *)
Lemma C10_counterexample_no_columns_yet :
  ∃ st,
    loop_body 1 1 Scenarios.wrong_names (mkState empty_frame 0 0 [])
      = (Return tt, st) ∧
    columns (all_data st) = [] ∧
    columns (all_data st) ≠ ["題目"; "答案"].
Proof.
  eexists. split; [vm_compute; reflexivity|]. split; [reflexivity|discriminate].
Qed.

(** * Further properties of the run *)

(** ** Counting rows *)

Section counting.
Implicit Types (r : Series) (seen prior rows : list Series).
Implicit Types (f : xlsx_file) (files : list xlsx_file).

Lemma duplicates_against_cons prior r rows :
  duplicates_against prior (r :: rows) =
  (if decide (r ∈ prior) then 1 else 0) + duplicates_against prior rows.
Proof.
  unfold duplicates_against. rewrite filter_cons. by case_decide.
Qed.

Lemma duplicates_against_app prior rows1 rows2 :
  duplicates_against prior (rows1 ++ rows2) =
  duplicates_against prior rows1 + duplicates_against prior rows2.
Proof. unfold duplicates_against. by rewrite filter_app, length_app. Qed.

Lemma duplicates_against_le prior rows :
  duplicates_against prior rows ≤ length rows.
Proof. apply length_filter. Qed.

(** Only membership of the rows at hand in [prior] matters. *)
Lemma duplicates_against_ext prior prior' rows :
  (∀ r, r ∈ rows → (r ∈ prior ↔ r ∈ prior')) →
  duplicates_against prior rows = duplicates_against prior' rows.
Proof.
  induction rows as [|x rows IH]; intros H; [done|].
  rewrite !duplicates_against_cons, IH by (intros; apply H; set_solver).
  f_equal. apply decide_ext, H. set_solver.
Qed.

Lemma duplicates_against_mono prior prior' rows :
  (∀ r, r ∈ prior → r ∈ prior') →
  duplicates_against prior rows ≤ duplicates_against prior' rows.
Proof.
  intros H. induction rows as [|x rows IH]; [done|].
  rewrite !duplicates_against_cons. repeat case_decide; try lia.
  naive_solver.
Qed.

Lemma duplicates_against_all prior rows :
  (∀ r, r ∈ rows → r ∈ prior) → duplicates_against prior rows = length rows.
Proof.
  induction rows as [|x rows IH]; intros H; [done|].
  rewrite duplicates_against_cons, IH, decide_True; [done|set_solver..].
Qed.

Lemma duplicates_against_none prior rows :
  (∀ r, r ∈ rows → r ∉ prior) → duplicates_against prior rows = 0.
Proof.
  induction rows as [|x rows IH]; intros H; [done|].
  rewrite duplicates_against_cons, IH, decide_False; [done|set_solver..].
Qed.

(** Every row is either kept or was there already, or repeats a row of
    its own list. *)
Lemma length_drop_dups_le seen rows :
  length (drop_dups seen rows) + duplicates_against seen rows ≤ length rows.
Proof.
  revert seen. induction rows as [|x rows IH]; intros seen; [done|].
  rewrite duplicates_against_cons. cbn [drop_dups length].
  destruct (existsb (equals x) seen) eqn:E.
  - apply existsb_equals in E. rewrite decide_True by done.
    specialize (IH seen). lia.
  - apply existsb_equals_false in E. rewrite decide_False by done.
    specialize (IH (x :: seen)). cbn [length].
    assert (Hm : duplicates_against seen rows ≤ duplicates_against (x :: seen) rows)
      by (apply duplicates_against_mono; set_solver).
    lia.
Qed.

Lemma length_drop_dups_NoDup seen rows :
  NoDup rows →
  length (drop_dups seen rows) + duplicates_against seen rows = length rows.
Proof.
  revert seen. induction rows as [|x rows IH]; intros seen Hnd; [done|].
  apply NoDup_cons in Hnd as [Hx Hnd].
  rewrite duplicates_against_cons. cbn [drop_dups length].
  destruct (existsb (equals x) seen) eqn:E.
  - apply existsb_equals in E. rewrite decide_True by done.
    specialize (IH seen Hnd). lia.
  - apply existsb_equals_false in E. rewrite decide_False by done.
    specialize (IH (x :: seen) Hnd). cbn [length].
    rewrite <- (duplicates_against_ext (x :: seen) seen rows) by set_solver.
    lia.
Qed.

Lemma length_projected df : length (projected df) = len df.
Proof. unfold projected, len. apply length_map. Qed.

Lemma length_projected_rows f : length (projected_rows f) = rows_read f.
Proof.
  unfold projected_rows, rows_read. destruct (file_content f); [|done].
  case_decide; [apply length_projected|done].
Qed.

Lemma length_all_rows files :
  length (all_rows files) = sum_list (rows_read <$> files).
Proof.
  induction files as [|f files IH]; [done|].
  rewrite all_rows_cons, length_app, length_projected_rows, IH. done.
Qed.

(** Rows kept plus duplicates counted never exceed rows read, along a run
    that starts with [prior] already seen. *)
Lemma kept_plus_duplicates_le files : ∀ prior,
  length (drop_dups prior (all_rows files)) + duplicates_total prior files
  ≤ length (all_rows files).
Proof.
  induction files as [|f files IH]; intros prior; [done|].
  rewrite all_rows_cons, drop_dups_app, !length_app. cbn [duplicates_total].
  pose proof (length_drop_dups_le prior (projected_rows f)).
  specialize (IH (prior ++ projected_rows f)).
  rewrite (drop_dups_ext (projected_rows f ++ prior) (prior ++ projected_rows f))
    by set_solver.
  lia.
Qed.

Lemma kept_plus_duplicates_eq files : ∀ prior,
  Forall (λ f, NoDup (projected_rows f)) files →
  length (drop_dups prior (all_rows files)) + duplicates_total prior files
  = length (all_rows files).
Proof.
  induction files as [|f files IH]; intros prior Hnd; [done|].
  apply Forall_cons in Hnd as [Hf Hnd].
  rewrite all_rows_cons, drop_dups_app, !length_app. cbn [duplicates_total].
  pose proof (length_drop_dups_NoDup prior (projected_rows f) Hf).
  specialize (IH (prior ++ projected_rows f) Hnd).
  rewrite (drop_dups_ext (projected_rows f ++ prior) (prior ++ projected_rows f))
    by set_solver.
  lia.
Qed.

(** Against rows that already hold everything the files bring, every row
    read counts as a duplicate. *)
Lemma duplicates_total_all files : ∀ prior,
  (∀ r, r ∈ all_rows files → r ∈ prior) →
  duplicates_total prior files = length (all_rows files).
Proof.
  induction files as [|f files IH]; intros prior H; [done|].
  rewrite all_rows_cons in *. cbn [duplicates_total].
  rewrite length_app, IH, duplicates_against_all; [done|set_solver..].
Qed.

Lemma all_rows_filter_well_formed files :
  all_rows (filter well_formed files) = all_rows files.
Proof.
  induction files as [|f files IH]; [done|].
  rewrite filter_cons, all_rows_cons. case_decide as Hw.
  - by rewrite all_rows_cons, IH.
  - by rewrite projected_rows_skipped, IH.
Qed.

Lemma duplicates_total_filter_well_formed files : ∀ prior,
  duplicates_total prior (filter well_formed files) = duplicates_total prior files.
Proof.
  induction files as [|f files IH]; intros prior; [done|].
  rewrite filter_cons. cbn [duplicates_total]. case_decide as Hw.
  - cbn [duplicates_total]. by rewrite IH.
  - rewrite projected_rows_skipped by done.
    by rewrite app_nil_r, IH.
Qed.

(** The data a run ends with, for any listing of the folder, the empty
    one included. *)
Lemma merge_xlsx_files_data files input_folder output_file :
  ∃ st',
    merge_xlsx_files (Some files) input_folder output_file start
      = (Return tt, st') ∧
    all_data st' =
      mkDataFrame
        (if decide (Exists well_formed files) then required_columns else [])
        (drop_dups [] (all_rows files)) ∧
    total_rows_before st' = sum_list (rows_read <$> files) ∧
    total_duplicates st' = duplicates_total [] files ∧
    (files ≠ [] →
     ∃ es, effects st' =
       es ++ final_events output_file st').
Proof.
  destruct files as [|f files].
  - eexists. split; [reflexivity|]. cbn [all_data total_rows_before
      total_duplicates start].
    rewrite decide_False by (rewrite Exists_nil; tauto). done.
  - eexists. split; [apply merge_xlsx_files_run|].
    cbn [all_data total_rows_before total_duplicates effects state_after].
    repeat split. intros _. by eexists.
Qed.
End counting.

(** ** The three numbers of the summary *)

(** X1. In every run that reaches the summary, the three numbers it shows
    are the final values of the two totals and the final row count, and
    the rows kept plus the duplicates reported never exceed the rows
    read. *)
Theorem X1_kept_plus_duplicates_within_read f files input_folder output_file :
  ∃ st',
    merge_xlsx_files (Some (f :: files)) input_folder output_file start
      = (Return tt, st') ∧
    PrintTotalRead (total_rows_before st') ∈ effects st' ∧
    PrintTotalDuplicates (total_duplicates st') ∈ effects st' ∧
    PrintFinalRows (len (all_data st')) ∈ effects st' ∧
    len (all_data st') + total_duplicates st' ≤ total_rows_before st'.
Proof.
  destruct (merge_xlsx_files_data (f :: files) input_folder output_file)
    as (st' & Hrun & Hdata & Hread & Hdup & Hshown).
  destruct Hshown as [es Hes]; [done|].
  exists st'. split; [done|]. rewrite Hes. unfold final_events.
  repeat split; try set_solver.
  rewrite Hread, Hdup, Hdata, <- length_all_rows. unfold len. cbn [values].
  apply kept_plus_duplicates_le.
Qed.

(** X2. When no well-formed file holds the same record twice, the summary
    adds up: rows kept plus duplicates reported equal rows read. *)
Theorem X2_summary_adds_up f files input_folder output_file :
  Forall (λ g, NoDup (projected_rows g)) (f :: files) →
  ∃ st',
    merge_xlsx_files (Some (f :: files)) input_folder output_file start
      = (Return tt, st') ∧
    len (all_data st') + total_duplicates st' = total_rows_before st'.
Proof.
  intros Hnd.
  destruct (merge_xlsx_files_data (f :: files) input_folder output_file)
    as (st' & Hrun & Hdata & Hread & Hdup & _).
  exists st'. split; [done|].
  rewrite Hread, Hdup, Hdata, <- length_all_rows. unfold len. cbn [values].
  by apply kept_plus_duplicates_eq.
Qed.

Lemma X2_summary_adds_up_witness :
  ∃ st',
    merge_xlsx_files (Some [Scenarios.file1; Scenarios.wrong_names; Scenarios.file2])
      "xlsx_files" "merged_output.csv" start = (Return tt, st') ∧
    len (all_data st') + total_duplicates st' = total_rows_before st'.
Proof.
  apply (X2_summary_adds_up Scenarios.file1
           [Scenarios.wrong_names; Scenarios.file2]).
  repeat constructor; vm_compute; set_solver.
Defined.

(** ** The order of the files *)

(** X3. The order in which the folder lists its files does not matter for
    what is kept: two listings of the same files end with the same columns,
    the same rows up to their order, hence the same number of rows, and the
    same total of rows read. *)
Theorem X3_listing_order_keeps_rows files files' input_folder output_file :
  files ≡ₚ files' →
  ∃ st st',
    merge_xlsx_files (Some files) input_folder output_file start
      = (Return tt, st) ∧
    merge_xlsx_files (Some files') input_folder output_file start
      = (Return tt, st') ∧
    columns (all_data st) = columns (all_data st') ∧
    values (all_data st) ≡ₚ values (all_data st') ∧
    len (all_data st) = len (all_data st') ∧
    total_rows_before st = total_rows_before st'.
Proof.
  intros Hp.
  destruct (merge_xlsx_files_data files input_folder output_file)
    as (st & Hrun & Hdata & Hread & _).
  destruct (merge_xlsx_files_data files' input_folder output_file)
    as (st' & Hrun' & Hdata' & Hread' & _).
  assert (Hrows : all_rows files ≡ₚ all_rows files').
  { unfold all_rows. by apply Permutation_flat_map. }
  assert (Hvalues : values (all_data st) ≡ₚ values (all_data st')).
  { rewrite Hdata, Hdata'. cbn [values].
    apply NoDup_Permutation; [apply NoDup_drop_dups..|].
    intros r. rewrite !elem_of_drop_dups. by rewrite Hrows. }
  exists st, st'. repeat split; try done.
  - rewrite Hdata, Hdata'. cbn [columns].
    apply decide_ext. by rewrite Hp.
  - unfold len. by rewrite Hvalues.
  - rewrite Hread, Hread', <- !length_all_rows. by rewrite Hrows.
Qed.

Lemma X3_listing_order_keeps_rows_witness :
  ∃ st st',
    merge_xlsx_files (Some [Scenarios.repeated; Scenarios.file2])
      "xlsx_files" "merged_output.csv" start = (Return tt, st) ∧
    merge_xlsx_files (Some [Scenarios.file2; Scenarios.repeated])
      "xlsx_files" "merged_output.csv" start = (Return tt, st') ∧
    columns (all_data st) = columns (all_data st') ∧
    values (all_data st) ≡ₚ values (all_data st') ∧
    len (all_data st) = len (all_data st') ∧
    total_rows_before st = total_rows_before st'.
Proof.
  apply (X3_listing_order_keeps_rows [Scenarios.repeated; Scenarios.file2]
           [Scenarios.file2; Scenarios.repeated]).
  apply Permutation_swap.
Defined.

(** The duplicate total, on the other hand, depends on the order: the
    same two files report one duplicate one way round and two the other. *)
Example duplicate_total_depends_on_order :
  let total files :=
    total_duplicates
      (merge_xlsx_files (Some files) "xlsx_files" "merged_output.csv" start).2 in
  total [Scenarios.repeated; Scenarios.file2] = 1 ∧
  total [Scenarios.file2; Scenarios.repeated] = 2.
Proof. split; vm_compute; reflexivity. Qed.

(** X4. Leaving the skipped files out of the folder changes nothing in
    the data: the run on all files and the run on the well-formed ones
    alone end with the same table and the same two totals. *)
Theorem X4_skipped_files_can_be_left_out files input_folder output_file :
  ∃ st st',
    merge_xlsx_files (Some files) input_folder output_file start
      = (Return tt, st) ∧
    merge_xlsx_files (Some (filter well_formed files)) input_folder output_file
      start = (Return tt, st') ∧
    all_data st' = all_data st ∧
    total_rows_before st' = total_rows_before st ∧
    total_duplicates st' = total_duplicates st.
Proof.
  destruct (merge_xlsx_files_data files input_folder output_file)
    as (st & Hrun & Hdata & Hread & Hdup & _).
  destruct (merge_xlsx_files_data (filter well_formed files) input_folder
              output_file) as (st' & Hrun' & Hdata' & Hread' & Hdup' & _).
  exists st, st'. repeat split; try done.
  - rewrite Hdata, Hdata', all_rows_filter_well_formed. f_equal.
    apply decide_ext. rewrite !Exists_exists.
    setoid_rewrite list_elem_of_filter. naive_solver.
  - rewrite Hread, Hread', <- !length_all_rows.
    by rewrite all_rows_filter_well_formed.
  - by rewrite Hdup, Hdup', duplicates_total_filter_well_formed.
Qed.

(** ** What one well-formed file does to the table *)

Section one_file.
Implicit Types (r : Series) (seen rows : list Series).

Lemma drop_dups_all_seen seen rows :
  (∀ r, r ∈ rows → r ∈ seen) → drop_dups seen rows = [].
Proof.
  intros H. apply length_zero_iff_nil.
  pose proof (length_drop_dups_le seen rows).
  rewrite duplicates_against_all in * by done. lia.
Qed.

(** The table after a well-formed file: what was there, then the file's
    rows that were neither there nor earlier in the file. *)
Lemma drop_dups_after_table pre rows :
  drop_dups [] (drop_dups [] (all_rows pre) ++ rows) =
  drop_dups [] (all_rows pre) ++ drop_dups (drop_dups [] (all_rows pre)) rows.
Proof.
  rewrite drop_dups_app, drop_dups_idemp. f_equal.
  apply drop_dups_ext. intros r. by rewrite app_nil_r.
Qed.
End one_file.

(** X5. A well-formed file all of whose records are in the table already
    leaves the rows of the table as they are, and every one of its rows is
    counted as a duplicate. *)
Theorem X5_file_with_nothing_new n pre st i f df :
  after_files n pre st →
  file_content f = Loaded df → missing df = [] →
  (∀ r, r ∈ projected df → r ∈ values (all_data st)) →
  ∃ st',
    loop_body n i f st = (Return tt, st') ∧
    values (all_data st') = values (all_data st) ∧
    total_rows_before st' = total_rows_before st + len df ∧
    total_duplicates st' = total_duplicates st + len df ∧
    effects st' =
      effects st ++
      [PrintProcessing i n (file_name f);
       PrintFileInfo (len df) (length (columns df));
       PrintFiltered;
       PrintDuplicates (len df);
       PrintRunningTotal (len (all_data st))].
Proof.
  intros Hst Hf Hm Hin.
  apply after_files_state_after in Hst as [es ->].
  eexists. split.
  { apply (loop_body_well_formed n i f df); [done..|apply state_after_tidy]. }
  cbn [all_data values total_rows_before total_duplicates effects state_after]
    in *.
  rewrite drop_dups_after_table, (drop_dups_all_seen _ _ Hin), app_nil_r.
  rewrite (duplicates_against_all _ _ Hin), length_projected.
  done.
Qed.

Lemma X5_file_with_nothing_new_witness :
  let st := Scenarios.after_file1 in
  let df := Scenarios.sheet [Scenarios.record "Q1" "A1";
                             Scenarios.record "Q1" "A1"] in
  ∃ st',
    loop_body 2 2 Scenarios.repeated st = (Return tt, st') ∧
    values (all_data st') = values (all_data st) ∧
    total_rows_before st' = total_rows_before st + len df ∧
    total_duplicates st' = total_duplicates st + len df ∧
    effects st' =
      effects st ++
      [PrintProcessing 2 2 "repeated.xlsx";
       PrintFileInfo (len df) (length (columns df));
       PrintFiltered;
       PrintDuplicates (len df);
       PrintRunningTotal (len (all_data st))].
Proof.
  intros st df.
  apply (X5_file_with_nothing_new 2 [Scenarios.file1] st 2 Scenarios.repeated df).
  - exists []. vm_compute. reflexivity.
  - reflexivity.
  - reflexivity.
  - vm_compute. intros r Hr. set_solver.
Defined.

(** X6. A well-formed file whose records are all different and none of
    which is in the table yet is appended as it is, in its own order, and
    reports no duplicate. *)
Theorem X6_fresh_file_appended_whole n pre st i f df :
  after_files n pre st →
  file_content f = Loaded df → missing df = [] →
  NoDup (projected df) →
  (∀ r, r ∈ projected df → r ∉ values (all_data st)) →
  ∃ st',
    loop_body n i f st = (Return tt, st') ∧
    all_data st' =
      mkDataFrame required_columns (values (all_data st) ++ projected df) ∧
    total_duplicates st' = total_duplicates st ∧
    effects st' =
      effects st ++
      [PrintProcessing i n (file_name f);
       PrintFileInfo (len df) (length (columns df));
       PrintFiltered;
       PrintDuplicates 0;
       PrintRunningTotal (len (all_data st) + len df)].
Proof.
  intros Hst Hf Hm Hnd Hnew.
  apply after_files_state_after in Hst as [es ->].
  eexists. split.
  { apply (loop_body_well_formed n i f df); [done..|apply state_after_tidy]. }
  cbn [all_data values total_rows_before total_duplicates effects state_after]
    in *.
  rewrite drop_dups_after_table, (drop_dups_NoDup_id _ _ Hnd Hnew).
  rewrite (duplicates_against_none _ _ Hnew), Nat.add_0_r.
  unfold len. cbn [values]. by rewrite length_app, length_projected.
Qed.

Lemma X6_fresh_file_appended_whole_witness :
  let st := Scenarios.after_file1 in
  let df := mkDataFrame ["編號"; "答案"; "題目"]
              [[Text "7"; Text "A5"; Text "Q5"];
               [Text "8"; Text "A4"; Text "Q4"]] in
  let f := mkFile "more.xlsx" (Loaded df) in
  ∃ st',
    loop_body 2 2 f st = (Return tt, st') ∧
    all_data st' =
      mkDataFrame required_columns (values (all_data st) ++ projected df) ∧
    total_duplicates st' = total_duplicates st ∧
    effects st' =
      effects st ++
      [PrintProcessing 2 2 "more.xlsx";
       PrintFileInfo (len df) (length (columns df));
       PrintFiltered;
       PrintDuplicates 0;
       PrintRunningTotal (len (all_data st) + len df)].
Proof.
  intros st df f.
  apply (X6_fresh_file_appended_whole 2 [Scenarios.file1] st 2 f df).
  - exists []. vm_compute. reflexivity.
  - reflexivity.
  - reflexivity.
  - vm_compute. repeat constructor; set_solver.
  - vm_compute. intros r Hr. set_solver.
Defined.

(** X7. For every well-formed file the count reported is at most the
    number of rows of the file, the table does not get shorter, and it
    grows by at most the rows of the file that were not counted as
    duplicates. *)
Theorem X7_one_file_bounds n pre st i f df :
  after_files n pre st →
  file_content f = Loaded df → missing df = [] →
  ∃ st' d,
    loop_body n i f st = (Return tt, st') ∧
    total_duplicates st' = total_duplicates st + d ∧
    PrintDuplicates d ∈ drop (length (effects st)) (effects st') ∧
    d ≤ len df ∧
    len (all_data st) ≤ len (all_data st') ∧
    len (all_data st') + d ≤ len (all_data st) + len df.
Proof.
  intros Hst Hf Hm.
  apply after_files_state_after in Hst as [es ->].
  eexists. eexists. split.
  { apply (loop_body_well_formed n i f df); [done..|apply state_after_tidy]. }
  cbn [all_data values total_rows_before total_duplicates effects state_after].
  split; [done|]. split; [rewrite drop_app_length; set_solver|].
  unfold len. cbn [values].
  rewrite drop_dups_after_table, length_app.
  pose proof (length_drop_dups_le (drop_dups [] (all_rows pre)) (projected df)).
  pose proof (duplicates_against_le (drop_dups [] (all_rows pre)) (projected df)).
  rewrite length_projected in *. unfold len in *. lia.
Qed.

Lemma X7_one_file_bounds_witness :
  let st := Scenarios.after_file1 in
  ∃ st' d,
    loop_body 2 2 Scenarios.file2 st = (Return tt, st') ∧
    total_duplicates st' = total_duplicates st + d ∧
    PrintDuplicates d ∈ drop (length (effects st)) (effects st') ∧
    d ≤ 2 ∧
    len (all_data st) ≤ len (all_data st') ∧
    len (all_data st') + d ≤ len (all_data st) + 2.
Proof.
  intros st.
  apply (X7_one_file_bounds 2 [Scenarios.file1] st 2 Scenarios.file2
           (Scenarios.sheet [Scenarios.record "Q1" "A1";
                             Scenarios.record "Q3" "A3"])).
  - exists []. vm_compute. reflexivity.
  - reflexivity.
  - reflexivity.
Defined.

(** ** Use of the error handler *)

(** X9. The catch-all handler of the loop only ever reports a failure of
    [read_excel]: an iteration shows a read error exactly when the file
    did not load, and then it is the error of the load.  For a file that
    loads, neither the column selection nor the scan by position raises. *)
Theorem X9_handler_only_for_load_errors n pre st i f :
  after_files n pre st →
  ∃ st' shown,
    loop_body n i f st = (Return tt, st') ∧
    effects st' = effects st ++ shown ∧
    ∀ e, PrintReadError e ∈ shown ↔ file_content f = Unreadable e.
Proof.
  intros Hst. apply after_files_state_after in Hst as [es ->].
  pose proof (state_after_tidy n es pre) as Htidy.
  destruct (file_content f) as [df|e'] eqn:Hf;
    [destruct (decide (missing df = [])) as [Hm|Hm]|].
  - eexists. eexists. split; [by apply (loop_body_well_formed n i f df)|].
    cbn [effects]. split; [done|]. intros e. set_solver.
  - eexists. eexists. split; [by apply (loop_body_missing n i f df)|].
    cbn [effects]. split; [done|]. intros e. set_solver.
  - eexists. eexists. split; [by apply (loop_body_unreadable n i f e')|].
    cbn [effects]. split; [done|]. intros e.
    rewrite !elem_of_cons, elem_of_nil. naive_solver.
Qed.

Lemma X9_handler_only_for_load_errors_witness :
  let st := Scenarios.after_file1 in
  ∃ st' shown,
    loop_body 2 2 Scenarios.corrupt st = (Return tt, st') ∧
    effects st' = effects st ++ shown ∧
    ∀ e, PrintReadError e ∈ shown ↔ file_content Scenarios.corrupt = Unreadable e.
Proof.
  intros st.
  apply (X9_handler_only_for_load_errors 2 [Scenarios.file1] st 2
           Scenarios.corrupt).
  exists []. vm_compute. reflexivity.
Defined.

(** ** The per-file lines of the log *)

Section log.
Implicit Types (f : xlsx_file) (files : list xlsx_file).

Lemma announcements_file_events n i prior f :
  announcements (file_events n i prior f) = [(i, n, file_name f)].
Proof.
  unfold file_events. destruct (file_content f) as [df|e]; [|done].
  by destruct (missing df).
Qed.

Lemma announcements_loop_events n files : ∀ i prior,
  announcements (loop_events n i prior files) =
  imap (λ k f, (i + k, n, file_name f)) files.
Proof.
  induction files as [|f files IH]; intros i prior; [done|].
  cbn [loop_events]. unfold announcements at 1.
  rewrite omap_app. fold (announcements (file_events n i prior f)).
  fold (announcements (loop_events n (S i) (prior ++ projected_rows f) files)).
  rewrite announcements_file_events, IH, imap_cons, Nat.add_0_r.
  cbn [app]. f_equal. apply imap_ext. intros k g _. cbn. do 2 f_equal. lia.
Qed.

Lemma reported_counts_file_events n i prior f :
  sum_list (reported_counts (file_events n i prior f)) =
  duplicates_against prior (projected_rows f).
Proof.
  unfold file_events, projected_rows.
  destruct (file_content f) as [df|e]; [|done].
  case_decide as Hm.
  - by rewrite Hm; cbn; rewrite Nat.add_0_r.
  - by destruct (missing df).
Qed.

Lemma reported_counts_loop_events n files : ∀ i prior,
  sum_list (reported_counts (loop_events n i prior files)) =
  duplicates_total prior files.
Proof.
  induction files as [|f files IH]; intros i prior; [done|].
  cbn [loop_events duplicates_total]. unfold reported_counts at 1.
  rewrite omap_app. fold (reported_counts (file_events n i prior f)).
  fold (reported_counts (loop_events n (S i) (prior ++ projected_rows f) files)).
  by rewrite sum_list_with_app, reported_counts_file_events, IH.
Qed.
End log.

(** X10. Every file of the folder, skipped or not, is announced exactly
    once, in the order of the listing, numbered from 1 and out of the
    number of files found. *)
Theorem X10_every_file_announced_once files input_folder output_file :
  ∃ st',
    merge_xlsx_files (Some files) input_folder output_file start
      = (Return tt, st') ∧
    announcements (effects st') =
      imap (λ k f, (S k, length files, file_name f)) files.
Proof.
  destruct files as [|f files]; [by eexists|].
  eexists. split; [apply merge_xlsx_files_run|].
  cbn [effects state_after]. unfold announcements.
  rewrite !omap_app.
  fold (announcements (loop_events (length (f :: files)) 1 [] (f :: files))).
  rewrite announcements_loop_events.
  unfold final_events, export_events. destruct (negb (empty _)); cbn [omap app];
    by rewrite app_nil_r.
Qed.

(** X11. The duplicate total of the summary is the sum of the counts shown
    file by file; files that were skipped show none. *)
Theorem X11_duplicate_total_is_sum_of_file_counts f files input_folder output_file :
  ∃ st',
    merge_xlsx_files (Some (f :: files)) input_folder output_file start
      = (Return tt, st') ∧
    total_duplicates st' = sum_list (reported_counts (effects st')) ∧
    PrintTotalDuplicates (sum_list (reported_counts (effects st')))
      ∈ effects st'.
Proof.
  eexists. split; [apply merge_xlsx_files_run|].
  cbn [effects total_duplicates state_after].
  assert (Hsum : sum_list (reported_counts
            (([PrintFound (length (f :: files)); PrintRule] ++
              loop_events (length (f :: files)) 1 [] (f :: files)) ++
             final_events output_file
               (state_after (length (f :: files))
                  [PrintFound (length (f :: files)); PrintRule] (f :: files))))
          = duplicates_total [] (f :: files)).
  { unfold reported_counts. rewrite !omap_app, !sum_list_with_app.
    fold (reported_counts (loop_events (length (f :: files)) 1 [] (f :: files))).
    rewrite reported_counts_loop_events.
    unfold final_events, export_events.
    destruct (negb (empty _)); cbn; lia. }
  rewrite Hsum. split; [done|].
  unfold final_events. cbn [total_duplicates state_after]. set_solver.
Qed.

(** ** The folder and the entry point *)

Section entry_point.
Implicit Types (w : world).

(** [merge_xlsx_files] returns whatever the file system answers, and
    what it writes, if anything, is its final table, under the two
    required columns, at the output path. *)
Lemma merge_xlsx_files_returns folder input_folder output_file :
  ∃ st',
    merge_xlsx_files folder input_folder output_file start = (Return tt, st') ∧
    (∀ p, PrintFolderMissing p ∈ effects st' → folder = None) ∧
    ∀ path df, WriteCsv path df ∈ effects st' →
      path = output_file ∧ df = all_data st' ∧
      columns df = required_columns ∧
      values df = drop_dups [] (all_rows (default [] folder)).
Proof.
  destruct folder as [[|f files]|].
  - eexists. split; [reflexivity|]. cbn [effects]. split; set_solver.
  - eexists. split; [apply merge_xlsx_files_run|].
    cbn [all_data effects default].
    set (st := state_after _ _ _).
    assert (Htidy : tidy (all_data st)) by apply state_after_tidy.
    assert (Hcases : ∀ ev, ev ∈ effects st ++ final_events output_file st →
              ev = PrintFound (length (f :: files)) ∨ ev = PrintRule ∨
              per_file_event ev ∨ ev ∈ final_events output_file st).
    { intros ev. unfold st at 1. cbn [effects state_after].
      rewrite !elem_of_app. intros [[Hin|Hin]|Hin]; [set_solver| |by auto].
      pose proof (loop_events_per_file (length (f :: files)) (f :: files) 1 [])
        as Hpf.
      rewrite Forall_forall in Hpf. apply Hpf in Hin. auto. }
    split.
    + intros p Hin. apply Hcases in Hin as [?|[?|[?|Hin]]]; try done.
      unfold final_events, export_events in Hin.
      destruct (negb (empty _)); set_solver.
    + intros path df Hin. apply Hcases in Hin as [?|[?|[?|Hin]]]; try done.
      unfold final_events, export_events in Hin.
      destruct (empty (all_data st)) eqn:He; cbn [negb] in Hin; [set_solver|].
      rewrite elem_of_app, !elem_of_cons, !elem_of_nil in Hin.
      destruct_or!; simplify_eq. split; [done|]. split; [done|].
      split; [|done].
      destruct Htidy as [Ht|[Hc _]]; [|done]. by rewrite Ht in He.
  - eexists. split; [reflexivity|]. cbn [effects]. split; set_solver.
Qed.
End entry_point.

Section entry_point_runs.
Implicit Types (w : world) (files : list xlsx_file).

Lemma discover_say lines w folder_path :
  discover (say lines w) folder_path = discover w folder_path.
Proof. done. Qed.

Lemma discover_mkdir w folder_path :
  discover (mkdir folder_path w) folder_path = Some [].
Proof. unfold discover, mkdir. cbn [fs]. by rewrite lookup_insert_eq. Qed.

(** What discovery finds once [create_input_folder] has run: the folder
    is there, with the entries it had, or none if it was just made. *)
Lemma discover_after_create folder_name w :
  discover (create_input_folder folder_name w).2 folder_name =
  Some (default [] (discover w folder_name)).
Proof.
  unfold create_input_folder, discover at 2.
  destruct (fs w !! folder_name) as [[xlsx|]|] eqn:E; cbn [snd].
  - rewrite discover_say. unfold discover. by rewrite E.
  - rewrite discover_say. unfold discover. by rewrite E.
  - by rewrite discover_say, discover_mkdir.
Qed.

(** [main], unfolded: the banner, the folder, the merge on what discovery
    finds after the folder was ensured, the closing banner. *)
Lemma main_run w :
  let w1 := (create_input_folder "xlsx_files"
               (say [PrintBanner; PrintTitle; PrintBanner] w)).2 in
  ∃ st,
    merge_xlsx_files (Some (default [] (discover w "xlsx_files")))
      "xlsx_files" "merged_output.csv" start = (Return tt, st) ∧
    main w =
    (Return tt,
     say [PrintBanner; PrintFinished; PrintBanner]
       (say (Merge <$> effects st) (say [PrintStarting] w1))).
Proof.
  cbn zeta.
  destruct (merge_xlsx_files_returns
              (Some (default [] (discover w "xlsx_files")))
              "xlsx_files" "merged_output.csv") as (st & Hrun & _).
  exists st. split; [done|].
  unfold main, call_merge_xlsx_files.
  pose proof (discover_after_create "xlsx_files"
                (say [PrintBanner; PrintTitle; PrintBanner] w)) as Hd.
  destruct (create_input_folder "xlsx_files" _) as [p w1] eqn:Hc.
  cbn [snd] in *. rewrite discover_say in Hd.
  by rewrite discover_say, Hd, Hrun.
Qed.
End entry_point_runs.

(** X13. [main] returns, and the missing-folder message of
    [merge_xlsx_files] is never shown by it: the folder is ensured before
    the merge looks for it.  Afterwards the folder exists, and whatever a
    path held before, it still holds. *)
Theorem X13_main_never_misses_the_folder w :
  ∃ w' lines,
    main w = (Return tt, w') ∧
    console w' = console w ++ lines ∧
    (∀ p, Merge (PrintFolderMissing p) ∉ lines) ∧
    is_Some (fs w' !! "xlsx_files") ∧
    (∀ p x, fs w !! p = Some x → fs w' !! p = Some x).
Proof.
  destruct (main_run w) as (st & Hrun & Hmain).
  destruct (merge_xlsx_files_returns
              (Some (default [] (discover w "xlsx_files")))
              "xlsx_files" "merged_output.csv") as (st' & Hrun' & Hmiss & _).
  rewrite Hrun in Hrun'. injection Hrun' as <-.
  unfold create_input_folder in Hmain.
  destruct (fs (say _ w) !! "xlsx_files") as [x|] eqn:E;
    cbn [snd say mkdir fs console] in *;
    eexists; eexists; (split; [exact Hmain|]);
    unfold say, mkdir; cbn [fs console].
  - split; [by rewrite <- !app_assoc|]. split; [|split; [by rewrite E|done]].
    intros p. rewrite !elem_of_app, !elem_of_cons, !elem_of_nil, list_elem_of_fmap.
    intros Hin. destruct_or!; try done.
    destruct Hin as (ev & Heq & Hin). injection Heq as <-.
    specialize (Hmiss _ Hin). discriminate.
  - split; [by rewrite <- !app_assoc|].
    split; [|split; [by rewrite lookup_insert_eq|]].
    + intros p. rewrite !elem_of_app, !elem_of_cons, !elem_of_nil, list_elem_of_fmap.
      intros Hin. destruct_or!; try done.
      destruct Hin as (ev & Heq & Hin). injection Heq as <-.
      specialize (Hmiss _ Hin). discriminate.
    + intros p x Hp. rewrite lookup_insert_ne; [done|]. intros <-. congruence.
Qed.

Section export_happens.
Implicit Types (files : list xlsx_file).



End export_happens.



(** ** The folder and the entry point on a storage that can refuse *)

Section entry_point_on.
Implicit Types (io : storage) (w : world) (files : list xlsx_file).



(** On a storage where both calls go through, [main_on] is [main]. *)
Lemma main_on_accepting w : main_on accepting w = main w.
Proof.
  unfold main_on, main, create_input_folder_on, create_input_folder,
    call_merge_xlsx_files_on, call_merge_xlsx_files.
  cbn [say fs mkdir_error accepting].
  destruct (fs w !! "xlsx_files"); by rewrite merge_xlsx_files_on_accepting.
Qed.
End entry_point_on.



(** X14. [main] started where there is no [xlsx_files] yet.  If [mkdir]
    goes through, [main] makes the folder, finds it empty, asks for files
    to be put there, writes nothing and returns; no write is tried, so the
    rest of the storage does not matter.  If [mkdir] is refused, [main]
    ends in that error right after its banner: the folder is not made and
    the merge does not run. *)
Theorem X14_main_on_first_run io w :
  fs w !! "xlsx_files" = None →
  main_on io w =
  match mkdir_error io "xlsx_files" with
  | None =>
      (Return tt,
       mkWorld (<["xlsx_files" := Directory []]> (fs w))
         (console w ++
          [PrintBanner; PrintTitle; PrintBanner;
           PrintFolderCreated "xlsx_files";
           PrintStarting;
           Merge (PrintNoFiles "xlsx_files");
           Merge (PrintPutFilesHere "xlsx_files");
           PrintBanner; PrintFinished; PrintBanner]))
  | Some e =>
      (Raise e,
       mkWorld (fs w) (console w ++ [PrintBanner; PrintTitle; PrintBanner]))
  end.
Proof.
  intros Hnone.
  unfold main_on, create_input_folder_on, call_merge_xlsx_files_on.
  cbn [say fs]. rewrite Hnone.
  destruct (mkdir_error io "xlsx_files") as [e|]; [done|].
  rewrite discover_say, discover_say, discover_mkdir.
  unfold say, mkdir, merge_xlsx_files_on, mbind, M_bind, emit.
  cbn. by rewrite <- !app_assoc.
Qed.

Lemma X14_main_on_first_run_witness :
  main_on Storages.read_only (mkWorld ∅ []) =
  (Raise (Exception "PermissionError"),
   mkWorld ∅ ([] ++ [PrintBanner; PrintTitle; PrintBanner])).
Proof.
  exact (X14_main_on_first_run Storages.read_only (mkWorld ∅ []) eq_refl).
Defined.

(** The same first run on a storage that lets [mkdir] through. *)
Example first_run_makes_the_folder :
  main_on accepting (mkWorld ∅ []) =
  (Return tt,
   mkWorld (<["xlsx_files" := Directory []]> ∅)
     [PrintBanner; PrintTitle; PrintBanner;
      PrintFolderCreated "xlsx_files";
      PrintStarting;
      Merge (PrintNoFiles "xlsx_files");
      Merge (PrintPutFilesHere "xlsx_files");
      PrintBanner; PrintFinished; PrintBanner]).
Proof. reflexivity. Qed.


